(** * claude-island-state.py: the reporter hook, embedded and verified

    The hook reads one JSON notification on standard input, builds a state
    record, and sends it over a Unix socket to the ClaudeIsland application.
    For [PermissionRequest] it waits for a decision and prints a control
    directive.

    Everything the script obtains from outside (uid, [os.stat], the token
    file, the socket operations, the parent's tty) is a field of [world];
    every effect that the outside can observe (socket calls, [print]) is an
    [event] of the trace; Python exceptions and [sys.exit] are outcomes.

    [get_tty] is modelled on its own, over what [ps] and [os.ttyname]
    answer ([tty_env]); [main] takes its result as the [tty] field of
    [world].  Not modelled: a failure of [print]; the bytes [json.dumps]
    writes (an event carries the value that is serialised); elapsed time
    (the timeout is the value set on the socket and the [OSError] that
    [recv] raises when it expires); the lifetime of objects (what the
    interpreter does with the socket object once [send_event] has
    returned). *)

From Stdlib Require Import ZArith NArith List String Ascii Bool Lia.
From Stdlib Require Import Strings.Byte.
From Stdlib Require Import DecimalString.
From Stdlib Require Import Floats.PrimFloat.
Import ListNotations.
Open Scope Z_scope.

Set Warnings "-register-all".

(** ** Python text: sequences of Unicode code points *)

Definition str := list N.

(** A literal of the source, as code points. *)
Definition py (s : string) : str :=
  map N_of_ascii (list_ascii_of_string s).

Arguments py : simpl never.

Fixpoint str_eqb (a b : str) : bool :=
  match a, b with
  | [], [] => true
  | x :: a', y :: b' => N.eqb x y && str_eqb a' b'
  | _, _ => false
  end.

(** [str.isspace] for one character: CPython's [_PyUnicode_IsWhitespace]. *)
Definition isspace (c : N) : bool :=
  ((0x09 <=? c) && (c <=? 0x0D) || (0x1C <=? c) && (c <=? 0x20)
   || (c =? 0x85) || (c =? 0xA0) || (c =? 0x1680)
   || (0x2000 <=? c) && (c <=? 0x200A)
   || (c =? 0x2028) || (c =? 0x2029) || (c =? 0x202F)
   || (c =? 0x205F) || (c =? 0x3000))%N.

Fixpoint lstrip (s : str) : str :=
  match s with
  | c :: s' => if isspace c then lstrip s' else s
  | [] => []
  end.

(** [s.strip()] with no argument. *)
Definition strip (s : str) : str := rev (lstrip (rev (lstrip s))).

(** [str(n)] for an integer. *)
Definition str_of_Z (z : Z) : str := py (NilZero.string_of_int (Z.to_int z)).
Arguments str_of_Z : simpl never.

(** ** Bytes and strict UTF-8 decoding ([bytes.decode()]) *)

Definition bytes := list byte.

Definition is_cont (b : N) : bool := ((0x80 <=? b) && (b <=? 0xBF))%N.

Definition cont_bits (b : N) : N := (b - 0x80)%N.

(** [None] stands for [UnicodeDecodeError]: invalid start byte, missing or
    invalid continuation byte, overlong form, surrogate, or a code point
    above U+10FFFF. *)
Fixpoint utf8_decode_N (bs : list N) : option str :=
  match bs with
  | [] => Some []
  | b0 :: r0 =>
    if (b0 <? 0x80)%N then option_map (cons b0) (utf8_decode_N r0)
    else if (b0 <? 0xC2)%N then None
    else if (b0 <? 0xE0)%N then
      match r0 with
      | b1 :: r1 =>
        if is_cont b1
        then option_map (cons ((b0 - 0xC0) * 64 + cont_bits b1)%N)
                        (utf8_decode_N r1)
        else None
      | _ => None
      end
    else if (b0 <? 0xF0)%N then
      match r0 with
      | b1 :: b2 :: r2 =>
        if is_cont b1 && is_cont b2
           && (negb (b0 =? 0xE0) || (0xA0 <=? b1))%N
           && (negb (b0 =? 0xED) || (b1 <=? 0x9F))%N
        then option_map
               (cons ((b0 - 0xE0) * 4096 + cont_bits b1 * 64 + cont_bits b2)%N)
               (utf8_decode_N r2)
        else None
      | _ => None
      end
    else if (b0 <? 0xF5)%N then
      match r0 with
      | b1 :: b2 :: b3 :: r3 =>
        if is_cont b1 && is_cont b2 && is_cont b3
           && (negb (b0 =? 0xF0) || (0x90 <=? b1))%N
           && (negb (b0 =? 0xF4) || (b1 <=? 0x8F))%N
        then option_map
               (cons ((b0 - 0xF0) * 262144 + cont_bits b1 * 4096
                      + cont_bits b2 * 64 + cont_bits b3)%N)
               (utf8_decode_N r3)
        else None
      | _ => None
      end
    else None
  end.

Definition utf8_decode (bs : bytes) : option str :=
  utf8_decode_N (map Byte.to_N bs).
Arguments utf8_decode : simpl never.

(** ** Python values, as [json.loads] produces them *)

Inductive pyval : Type :=
| PyNone
| PyBool (b : bool)
| PyInt (z : Z)
| PyFloat (f : float)
| PyStr (s : str)
| PyList (l : list pyval)
| PyDict (d : list (str * pyval)).

(** A dict with string keys.  The pairs are kept in insertion order, the
    order in which [json.dumps] writes them; a key occurs once. *)
Definition dict := list (str * pyval).

Fixpoint dict_get (d : dict) (k : str) : option pyval :=
  match d with
  | [] => None
  | (k', v) :: d' => if str_eqb k' k then Some v else dict_get d' k
  end.

(** [d.get(k, default)]; [d.get(k)] is [get d k PyNone]. *)
Definition get (d : dict) (k : str) (default : pyval) : pyval :=
  match dict_get d k with
  | Some v => v
  | None => default
  end.

Arguments get : simpl never.

(** [d[k] = v]: overwrite in place, or append a new key. *)
Fixpoint dict_set (d : dict) (k : str) (v : pyval) : dict :=
  match d with
  | [] => [(k, v)]
  | (k', v') :: d' =>
    if str_eqb k' k then (k', v) :: d' else (k', v') :: dict_set d' k v
  end.

(** Truth value testing ([if x:], [x or y]). *)
Definition truthy (v : pyval) : bool :=
  match v with
  | PyNone => false
  | PyBool b => b
  | PyInt z => negb (z =? 0)
  | PyFloat f => negb (PrimFloat.eqb f PrimFloat.zero)
  | PyStr s => match s with [] => false | _ => true end
  | PyList l => match l with [] => false | _ => true end
  | PyDict d => match d with [] => false | _ => true end
  end.

(** [v == "literal"]: only a string equals a string. *)
Definition eq_str (v : pyval) (s : str) : bool :=
  match v with
  | PyStr t => str_eqb t s
  | _ => false
  end.

(** [a or b]. *)
Definition py_or (a b : pyval) : pyval := if truthy a then a else b.

(** ** The outside world

    One field per call the script makes on its environment.  Each call is
    made at most once per run ([os.getuid] apart, which is constant), so a
    result per call describes every environment, including one that changes
    between [os.path.exists] and [os.stat]. *)

Record stat_result := { st_uid : Z; st_mode : Z }.

(** A call that returns or raises [OSError] ([socket.error], [socket.timeout]
    and [IOError] are [OSError]). *)
Inductive io (A : Type) : Type :=
| Done (a : A)
| OSErr (msg : str).
Arguments Done {A} a.
Arguments OSErr {A} msg.

(** [open(TOKEN_PATH, 'r')] followed by [f.read()]: the text, an [OSError],
    or bytes that the text layer cannot decode. *)
Inductive read_result : Type :=
| ReadText (s : str)
| ReadOSError (msg : str)
| ReadUndecodable.

Record world := {
  getuid : Z;                      (* os.getuid() *)
  getppid : Z;                     (* os.getppid() *)
  tty : option str;                (* get_tty(), lines 60-93 *)
  socket_exists : bool;            (* os.path.exists(SOCKET_PATH) *)
  socket_stat : io stat_result;    (* os.stat(SOCKET_PATH) *)
  token_exists : bool;             (* os.path.exists(TOKEN_PATH) *)
  token_stat : io stat_result;     (* os.stat(TOKEN_PATH) *)
  token_read : read_result;        (* open(TOKEN_PATH, 'r').read() *)
  socket_new : io unit;            (* socket.socket(AF_UNIX, SOCK_STREAM) *)
  connect : io unit;               (* sock.connect(SOCKET_PATH) *)
  sendall : io unit;               (* sock.sendall(...) *)
  recv : io bytes;                 (* sock.recv(4096) *)
  close : io unit                  (* sock.close() *)
}.

(** ** Exceptions, outcomes and the trace *)

Inductive exn : Type :=
| OSError (msg : str)
| JSONDecodeError
| UnicodeDecodeError
| AttributeError
| RecursionError
| ValueError.

Inductive outcome (A : Type) : Type :=
| Ret (a : A)            (* the call returns *)
| Raise (e : exn)        (* an exception propagates *)
| Exit (code : Z).       (* sys.exit(code) *)
Arguments Ret {A} a.
Arguments Raise {A} e.
Arguments Exit {A} code.

(** What the run does to the outside, in order.  A call is recorded when it
    is made, whether it then returns or raises. *)
Inductive event : Type :=
| EvSocket                        (* socket.socket(AF_UNIX, SOCK_STREAM) *)
| EvSetTimeout (seconds : Z)      (* sock.settimeout(seconds) *)
| EvConnect                       (* sock.connect(SOCKET_PATH) *)
| EvSendall (payload : pyval)     (* sock.sendall(json.dumps(payload).encode()) *)
| EvRecv (bufsize : Z)            (* sock.recv(bufsize) *)
| EvClose                         (* sock.close() *)
| EvPrint (document : pyval).     (* print(json.dumps(document)) *)

Definition trace := list event.

Definition M (A : Type) : Type := (trace * outcome A)%type.

Definition ret {A} (a : A) : M A := ([], Ret a).
Definition raise {A} (e : exn) : M A := ([], Raise e).
Definition sys_exit {A} (code : Z) : M A := ([], Exit code).
Definition emit (e : event) : M unit := ([e], Ret tt).

Definition bind {A B} (m : M A) (k : A -> M B) : M B :=
  match m with
  | (t, Ret a) => (t ++ fst (k a), snd (k a))
  | (t, Raise e) => (t, Raise e)
  | (t, Exit c) => (t, Exit c)
  end.

Notation "x <- m ;; k" := (bind m (fun x => k))
  (at level 61, m at next level, right associativity).
Notation "m ;;; k" := (bind m (fun _ => k))
  (at level 61, right associativity).

(** [try: body except <classes>: handler]; [handles e] tells whether [e] is
    an instance of one of the classes.  [sys.exit] is not caught. *)
Definition try_except {A} (body : M A) (handles : exn -> bool)
    (handler : exn -> M A) : M A :=
  match body with
  | (t, Raise e) =>
    if handles e then (t ++ fst (handler e), snd (handler e))
    else (t, Raise e)
  | other => other
  end.

Definition lift_io {A} (r : io A) : M A :=
  match r with
  | Done a => ret a
  | OSErr msg => raise (OSError msg)
  end.

Definition is_OSError (e : exn) : bool :=
  match e with OSError _ => true | _ => false end.

(** ** Constants (lines 14-18) *)

Definition TIMEOUT_SECONDS : Z := 300.

Definition S_IFMT : Z := 61440.    (* 0o170000 *)
Definition S_IFSOCK : Z := 49152.  (* 0o140000 *)

(** [stat.S_ISSOCK(mode)]. *)
Definition S_ISSOCK (mode : Z) : bool := Z.land mode S_IFMT =? S_IFSOCK.

(** ** verify_socket_security (lines 21-39) *)

(** The f-string of line 31. *)
Definition owned_by_other (s : stat_result) (w : world) : str :=
  py "Socket owned by uid " ++ str_of_Z (st_uid s)
  ++ py ", expected " ++ str_of_Z (getuid w).

Definition verify_socket_security (w : world) : M (bool * option str) :=
  try_except
    (if negb (socket_exists w) then
       ret (false, Some (py "Socket does not exist"))
     else
       sock_stat <- lift_io (socket_stat w) ;;
       if negb (st_uid sock_stat =? getuid w) then
         ret (false, Some (owned_by_other sock_stat w))
       else if negb (S_ISSOCK (st_mode sock_stat)) then
         ret (false, Some (py "Path is not a socket"))
       else
         ret (true, None))
    is_OSError
    (fun e => match e with
              | OSError msg => ret (false, Some msg)
              | _ => raise e
              end).

(** The three checks of lines 25, 30 and 34 all pass. *)
Definition socket_trusted (w : world) : Prop :=
  socket_exists w = true /\
  exists s, socket_stat w = Done s /\ st_uid s = getuid w
            /\ S_ISSOCK (st_mode s) = true.

(** ** What [os.getuid] and [os.stat] report

    A process has a real and an effective user id.  [os.getuid()], the call
    of lines 30, 31 and 48, returns the real one; [os.geteuid()], which the
    source never calls, returns the effective one. *)
Record credentials := { real_uid : Z; effective_uid : Z }.

Definition runs_as (c : credentials) (w : world) : Prop :=
  getuid w = real_uid c.

(** The kinds of file that [os.stat], which follows symbolic links, tells
    apart by the type bits of [st_mode].  A local socket bound to a path is
    a socket file whatever its type: the mode does not record whether it is
    a stream or a datagram socket. *)
Inductive socket_type : Type := SOCK_STREAM | SOCK_DGRAM.

Inductive file_kind : Type :=
| Fifo | CharDevice | Directory | BlockDevice | RegularFile
| SocketFile (ty : socket_type).

(** The [S_IF*] constants of the [stat] module. *)
Definition type_bits (k : file_kind) : Z :=
  match k with
  | Fifo => 4096            (* 0o010000 *)
  | CharDevice => 8192      (* 0o020000 *)
  | Directory => 16384      (* 0o040000 *)
  | BlockDevice => 24576    (* 0o060000 *)
  | RegularFile => 32768    (* 0o100000 *)
  | SocketFile _ => 49152   (* 0o140000 *)
  end.

(** The [st_mode] of a file of kind [k] with permission bits [perm]. *)
Definition mode_of (k : file_kind) (perm : Z) : Z := Z.lor (type_bits k) perm.

(** ** read_auth_token (lines 42-57) *)

Definition open_read (w : world) : M str :=
  match token_read w with
  | ReadText s => ret s
  | ReadOSError msg => raise (OSError msg)
  | ReadUndecodable => raise UnicodeDecodeError
  end.

Definition read_auth_token (w : world) : M (option str) :=
  try_except
    (let read_file := (content <- open_read w ;; ret (Some (strip content))) in
     if token_exists w then
       token_stat <- lift_io (token_stat w) ;;
       if negb (st_uid token_stat =? getuid w) then
         ret None
       else if negb (Z.land (st_mode token_stat) 63 (* 0o077 *) =? 0) then
         ret None
       else
         read_file
     else
       read_file)
    is_OSError
    (fun _ => ret None).

(** ** get_tty (lines 60-93)

    What the terminal lookup meets: the run of [ps -p <ppid> -o tty=], and
    [os.ttyname] on the descriptors of standard input and output. *)

(** A call that returns or raises. *)
Inductive call (A : Type) : Type :=
| Returns (a : A)
| Raises (e : exn).
Arguments Returns {A} a.
Arguments Raises {A} e.

Record tty_env := {
  ps_stdout : call str;        (* subprocess.run([...]).stdout *)
  stdin_ttyname : call str;    (* os.ttyname(sys.stdin.fileno()) *)
  stdout_ttyname : call str    (* os.ttyname(sys.stdout.fileno()) *)
}.

Definition lift_call {A} (c : call A) : M A :=
  match c with
  | Returns a => ret a
  | Raises e => raise e
  end.

(** [s.startswith(prefix)]. *)
Fixpoint startswith (s prefix : str) : bool :=
  match prefix, s with
  | [], _ => true
  | p :: prefix', c :: s' => N.eqb c p && startswith s' prefix'
  | _ :: _, [] => false
  end.

(** Lines 75-80: the terminal [ps] names, if it names one. *)
Definition tty_of_ps (stdout : str) : option str :=
  let tty := strip stdout in
  if truthy (PyStr tty) && negb (str_eqb tty (py "??"))
     && negb (str_eqb tty (py "-"))
  then
    Some (if negb (startswith tty (py "/dev/")) then py "/dev/" ++ tty
          else tty)
  else None.

(** [except (OSError, AttributeError)]. *)
Definition ttyname_handles (e : exn) : bool :=
  match e with
  | OSError _ | AttributeError => true
  | _ => false
  end.

(** [None] inside [M] stands for "no [return] yet": control falls through to
    the next statement. *)
Definition get_tty (env : tty_env) : M (option str) :=
  from_ps <- try_except
               (stdout <- lift_call (ps_stdout env) ;; ret (tty_of_ps stdout))
               (fun _ => true)    (* except Exception *)
               (fun _ => ret None) ;;
  match from_ps with
  | Some tty => ret (Some tty)
  | None =>
    from_stdin <- try_except
                    (name <- lift_call (stdin_ttyname env) ;; ret (Some name))
                    ttyname_handles
                    (fun _ => ret None) ;;
    match from_stdin with
    | Some name => ret (Some name)
    | None =>
      try_except
        (name <- lift_call (stdout_ttyname env) ;; ret (Some name))
        ttyname_handles
        (fun _ => ret None)
    end
  end.

(** The answer of [ps] is not a terminal name: the call raised, or printed
    nothing but whitespace, or [??], or [-]. *)
Definition ps_names_nothing (env : tty_env) : Prop :=
  match ps_stdout env with
  | Raises _ => True
  | Returns out =>
    strip out = [] \/ strip out = py "??" \/ strip out = py "-"
  end.

(** The world's [tty] field is the value [get_tty] returned. *)
Definition tty_from (env : tty_env) (w : world) : Prop :=
  get_tty env = ([], Ret (tty w)).

(** ** send_event (lines 96-130) *)

Section Reporter.

(** [json.loads] on text: the value, or the exception it raises, which is
    [json.JSONDecodeError] on text that is not JSON, and can be another on
    text that is: [RecursionError] on nesting too deep, [ValueError] on an
    integer literal with more digits than the interpreter converts. *)
Variable json_loads : str -> call pyval.

Definition loads (text : str) : M pyval := lift_call (json_loads text).

Definition decode (b : bytes) : M str :=
  match utf8_decode b with
  | Some s => ret s
  | None => raise UnicodeDecodeError
  end.

Definition send_handles (e : exn) : bool :=
  match e with
  | OSError _ | JSONDecodeError => true
  | _ => false
  end.

(** The value returned is Python's: [PyNone] is [None].  [if not auth_token]
    holds for [None] and for the empty string. *)
Definition send_event (w : world) (state : dict) : M pyval :=
  try_except
    (v <- verify_socket_security w ;;
     let '(is_safe, error) := v in
     if negb is_safe then ret PyNone
     else
       auth_token <- read_auth_token w ;;
       match auth_token with
       | Some ((_ :: _) as token) =>
         let state := dict_set state (py "_auth_token") (PyStr token) in
         emit EvSocket ;;; lift_io (socket_new w) ;;;
         emit (EvSetTimeout TIMEOUT_SECONDS) ;;;
         emit EvConnect ;;; lift_io (connect w) ;;;
         emit (EvSendall (PyDict state)) ;;; lift_io (sendall w) ;;;
         if eq_str (get state (py "status") PyNone) (py "waiting_for_approval")
         then
           emit (EvRecv 4096) ;;;
           response <- lift_io (recv w) ;;
           emit EvClose ;;; lift_io (close w) ;;;
           match response with
           | _ :: _ => text <- decode response ;; loads text
           | [] => ret PyNone
           end
         else
           emit EvClose ;;; lift_io (close w) ;;;
           ret PyNone
       | _ => ret PyNone
       end)
    send_handles
    (fun _ => ret PyNone).

(** ** main (lines 133-256) *)

(** Lines 139-155: the record before its status is known. *)
Definition build_state (w : world) (data : dict) : dict :=
  [ (py "session_id", get data (py "session_id") (PyStr (py "unknown")));
    (py "cwd", get data (py "cwd") (PyStr []));
    (py "event", get data (py "hook_event_name") (PyStr []));
    (py "pid", PyInt (getppid w));
    (py "tty", match tty w with Some t => PyStr t | None => PyNone end) ].

(** Where a branch of the if/elif chain hands its record on. *)
Inductive classified : Type :=
| Request (state : dict)         (* line 188: send and wait for the decision *)
| Suppressed                     (* line 226: sys.exit(0), nothing is sent *)
| FireAndForget (state : dict).  (* line 256: send, no reply expected *)

Definition set_status (state : dict) (status : string) : dict :=
  dict_set state (py "status") (PyStr (py status)).

(** Lines 164-169 and 173-178, 183-184: tool name, tool input, and for the
    two tool events the [tool_use_id] when it is present and true. *)
Definition set_tool (data state : dict) : dict :=
  dict_set (dict_set state (py "tool") (get data (py "tool_name") PyNone))
           (py "tool_input") (get data (py "tool_input") (PyDict [])).

Definition set_tool_use_id (data state : dict) : dict :=
  let tool_use_id_from_event := get data (py "tool_use_id") PyNone in
  if truthy tool_use_id_from_event
  then dict_set state (py "tool_use_id") tool_use_id_from_event
  else state.

(** Lines 157-253: the if/elif chain on the event name. *)
Definition classify (data state : dict) : classified :=
  let event := get data (py "hook_event_name") (PyStr []) in
  if eq_str event (py "UserPromptSubmit") then
    FireAndForget (set_status state "processing")
  else if eq_str event (py "PreToolUse") then
    FireAndForget
      (set_tool_use_id data (set_tool data (set_status state "running_tool")))
  else if eq_str event (py "PostToolUse") then
    FireAndForget
      (set_tool_use_id data (set_tool data (set_status state "processing")))
  else if eq_str event (py "PermissionRequest") then
    Request (set_tool data (set_status state "waiting_for_approval"))
  else if eq_str event (py "Notification") then
    let notification_type := get data (py "notification_type") PyNone in
    if eq_str notification_type (py "permission_prompt") then
      Suppressed
    else
      let state :=
        if eq_str notification_type (py "idle_prompt")
        then set_status state "waiting_for_input"
        else set_status state "notification" in
      FireAndForget
        (dict_set (dict_set state (py "notification_type") notification_type)
                  (py "message") (get data (py "message") PyNone))
  else if eq_str event (py "Stop") then
    FireAndForget (set_status state "waiting_for_input")
  else if eq_str event (py "SubagentStop") then
    FireAndForget (set_status state "waiting_for_input")
  else if eq_str event (py "SessionStart") then
    FireAndForget (set_status state "waiting_for_input")
  else if eq_str event (py "SessionEnd") then
    FireAndForget (set_status state "ended")
  else if eq_str event (py "PreCompact") then
    FireAndForget (set_status state "compacting")
  else
    FireAndForget (set_status state "unknown").

(** Lines 182-184: the record of a PermissionRequest notification. *)
Definition request_record (w : world) (data : dict) : dict :=
  set_tool data (set_status (build_state w data) "waiting_for_approval").

(** [v.get(k, default)] on any value: only a dict has the method. *)
Definition py_get (v : pyval) (k : str) (default : pyval) : M pyval :=
  match v with
  | PyDict d => ret (get d k default)
  | _ => raise AttributeError
  end.

Definition hook_output (decision : dict) : pyval :=
  PyDict [ (py "hookSpecificOutput",
            PyDict [ (py "hookEventName", PyStr (py "PermissionRequest"));
                     (py "decision", PyDict decision) ]) ].

Definition allow_decision : dict := [ (py "behavior", PyStr (py "allow")) ].

Definition allow_output : pyval := hook_output allow_decision.

Definition deny_output (message : pyval) : pyval :=
  hook_output [ (py "behavior", PyStr (py "deny"));
                (py "message", message) ].

Definition denied_by_user : pyval := PyStr (py "Denied by user via ClaudeIsland").

(** Lines 190-220: what the PermissionRequest branch does with the reply. *)
Definition render (response : pyval) : M unit :=
  (if truthy response then
     decision <- py_get response (py "decision") (PyStr (py "ask")) ;;
     reason <- py_get response (py "reason") (PyStr []) ;;
     if eq_str decision (py "allow") then
       emit (EvPrint allow_output) ;;; sys_exit 0
     else if eq_str decision (py "deny") then
       emit (EvPrint (deny_output (py_or reason denied_by_user))) ;;;
       sys_exit 0
     else ret tt
   else ret tt) ;;;
  sys_exit 0.

Definition is_JSONDecodeError (e : exn) : bool :=
  match e with JSONDecodeError => true | _ => false end.

(** [stdin] is the text [json.load] reads from standard input. *)
Definition main (w : world) (stdin : str) : M unit :=
  data <- try_except (loads stdin) is_JSONDecodeError (fun _ => sys_exit 1) ;;
  match data with
  | PyDict data =>
    match classify data (build_state w data) with
    | Request state => response <- send_event w state ;; render response
    | Suppressed => sys_exit 0
    | FireAndForget state => send_event w state ;;; ret tt
    end
  | _ => raise AttributeError    (* line 139: data.get *)
  end.

(** The exit status of the process: 0 when [main] returns, the argument of
    [sys.exit], 1 when an exception reaches the top level. *)
Definition exit_code {A} (m : M A) : Z :=
  match snd m with
  | Ret _ => 0
  | Exit c => c
  | Raise _ => 1
  end.

Definition stdout (m : M unit) : list pyval :=
  flat_map (fun e => match e with EvPrint d => [d] | _ => [] end) (fst m).

Definition is_connect (e : event) : bool :=
  match e with EvConnect => true | _ => false end.

Definition is_recv (e : event) : bool :=
  match e with EvRecv _ => true | _ => false end.

Definition is_close (e : event) : bool :=
  match e with EvClose => true | _ => false end.

(** [sock.connect] was called and returned. *)
Definition connection_opened (w : world) (t : trace) : bool :=
  existsb is_connect t && match connect w with Done _ => true | _ => false end.

(** The record is tagged as a request (line 120). *)
Definition is_request (state : dict) : bool :=
  eq_str (get state (py "status") PyNone) (py "waiting_for_approval").

(** The token file, if it is read, holds text. *)
Definition text_token (w : world) : bool :=
  match token_read w with ReadUndecodable => false | _ => true end.

(** The reply, if one is received, is UTF-8 text on which [json.loads]
    returns, or raises an exception that line 129 lists. *)
Definition caught_reply (w : world) : bool :=
  match recv w with
  | Done b =>
    match utf8_decode b with
    | Some text =>
      match json_loads text with
      | Returns _ => true
      | Raises e => send_handles e
      end
    | None => false
    end
  | OSErr _ => true
  end.


(** An attempt to contact the authority: any socket call. *)
Definition is_socket_event (e : event) : bool :=
  match e with EvPrint _ => false | _ => true end.

Definition contacts_authority {A} (m : M A) : bool :=
  existsb is_socket_event (fst m).

End Reporter.

(** ** Sample environments and documents

    Used to run the definitions on concrete inputs. *)

Definition quoted (s : string) : str := [34%N] ++ py s ++ [34%N].

(** [{"hook_event_name":"<event>"}] *)
Definition doc_event (event : string) : str :=
  py "{" ++ quoted "hook_event_name" ++ py ":" ++ quoted event ++ py "}".

(** [{"hook_event_name":"Notification","notification_type":"permission_prompt"}] *)
Definition doc_permission_prompt : str :=
  py "{" ++ quoted "hook_event_name" ++ py ":" ++ quoted "Notification"
  ++ py "," ++ quoted "notification_type" ++ py ":"
  ++ quoted "permission_prompt" ++ py "}".

(** [{"decision":"allow"}] *)
Definition doc_allow : str :=
  py "{" ++ quoted "decision" ++ py ":" ++ quoted "allow" ++ py "}".

(** [{"decision":"deny","reason":"x"}] *)
Definition doc_deny_x : str :=
  py "{" ++ quoted "decision" ++ py ":" ++ quoted "deny" ++ py ","
  ++ quoted "reason" ++ py ":" ++ quoted "x" ++ py "}".

(** [[1]] *)
Definition doc_list : str := py "[1]".

Definition event_data (event : string) : dict :=
  [ (py "hook_event_name", PyStr (py event)) ].

Definition permission_prompt_data : dict :=
  [ (py "hook_event_name", PyStr (py "Notification"));
    (py "notification_type", PyStr (py "permission_prompt")) ].

(** [json.loads] on the documents above, which are all the examples parse;
    it is taken to reject any other text. *)
Definition sample_loads (text : str) : call pyval :=
  if str_eqb text (doc_event "PermissionRequest")
  then Returns (PyDict (event_data "PermissionRequest"))
  else if str_eqb text (doc_event "SessionStart")
  then Returns (PyDict (event_data "SessionStart"))
  else if str_eqb text doc_permission_prompt
  then Returns (PyDict permission_prompt_data)
  else if str_eqb text doc_allow
  then Returns (PyDict [ (py "decision", PyStr (py "allow")) ])
  else if str_eqb text doc_deny_x
  then Returns (PyDict [ (py "decision", PyStr (py "deny"));
                      (py "reason", PyStr (py "x")) ])
  else if str_eqb text doc_list
  then Returns (PyList [ PyInt 1 ])
  else Raises JSONDecodeError.

(** [s.encode()] for ASCII text. *)
Definition encode_ascii (s : str) : bytes :=
  map (fun c => match Byte.of_N c with Some b => b | None => x3f end) s.

Definition socket_mode : Z := 49645.  (* 0o140755: a socket, rwxr-xr-x *)
Definition token_mode : Z := 33152.   (* 0o100600: a regular file, rw------- *)

(** The application is running as user 501: the socket and the token file
    are in place, the token file reads as [token], [sock.sendall] does
    [sent] and [sock.recv] does [reply]. *)
Definition app_world (token : read_result) (sent : io unit) (reply : io bytes)
    : world :=
  {| getuid := 501; getppid := 4242; tty := Some (py "/dev/ttys001");
     socket_exists := true;
     socket_stat := Done {| st_uid := 501; st_mode := socket_mode |};
     token_exists := true;
     token_stat := Done {| st_uid := 501; st_mode := token_mode |};
     token_read := token;
     socket_new := Done tt; connect := Done tt; sendall := sent;
     recv := reply; close := Done tt |}.

Definition running (reply : io bytes) : world :=
  app_world (ReadText (py "0123abcd")) (Done tt) reply.

(** What [os.stat] finds at the socket path is [found]; all else is as in
    [running]. *)
Definition at_socket_path (found : io stat_result) : world :=
  {| getuid := 501; getppid := 4242; tty := Some (py "/dev/ttys001");
     socket_exists := true;
     socket_stat := found;
     token_exists := true;
     token_stat := Done {| st_uid := 501; st_mode := token_mode |};
     token_read := ReadText (py "0123abcd");
     socket_new := Done tt; connect := Done tt; sendall := Done tt;
     recv := Done []; close := Done tt |}.

(** The application is not running: no socket, no token file. *)
Definition not_running : world :=
  {| getuid := 501; getppid := 4242; tty := None;
     socket_exists := false;
     socket_stat := OSErr (py "No such file or directory");
     token_exists := false;
     token_stat := OSErr (py "No such file or directory");
     token_read := ReadOSError (py "No such file or directory");
     socket_new := Done tt;
     connect := OSErr (py "No such file or directory");
     sendall := OSErr (py "Broken pipe");
     recv := OSErr (py "Bad file descriptor"); close := Done tt |}.

(** The base fields of lines 149-155, and the fields a branch may add. *)
Definition base_keys : list str :=
  [ py "session_id"; py "cwd"; py "event"; py "pid"; py "tty" ].

Definition branch_keys : list str :=
  [ py "status"; py "tool"; py "tool_input"; py "tool_use_id";
    py "notification_type"; py "message" ].

(** [event == "<name>"] on the notification (line 140 and the tests of the
    chain). *)
Definition event_is (data : dict) (name : string) : bool :=
  eq_str (get data (py "hook_event_name") (PyStr [])) (py name).

(** Two worlds that differ at most in what [sock.recv] does. *)
Definition same_but_reply (w w' : world) : Prop :=
  getuid w = getuid w' /\ getppid w = getppid w' /\ tty w = tty w'
  /\ socket_exists w = socket_exists w' /\ socket_stat w = socket_stat w'
  /\ token_exists w = token_exists w' /\ token_stat w = token_stat w'
  /\ token_read w = token_read w' /\ socket_new w = socket_new w'
  /\ connect w = connect w' /\ sendall w = sendall w' /\ close w = close w'.

(** [ps] answers [ttys001]; neither standard stream is a terminal. *)
Definition ps_env : tty_env :=
  {| ps_stdout := Returns (py "ttys001" ++ [10%N]);
     stdin_ttyname := Raises (OSError (py "Inappropriate ioctl for device"));
     stdout_ttyname := Raises (OSError (py "Inappropriate ioctl for device")) |}.

(** [ps] knows no terminal for the parent; standard output is one. *)
Definition fallback_env : tty_env :=
  {| ps_stdout := Returns (py "??" ++ [10%N]);
     stdin_ttyname := Raises (OSError (py "Inappropriate ioctl for device"));
     stdout_ttyname := Returns (py "/dev/ttys003") |}.



(** A PreToolUse notification with a tool name and a [tool_use_id]. *)
Definition pre_tool_data : dict :=
  [ (py "hook_event_name", PyStr (py "PreToolUse"));
    (py "session_id", PyStr (py "s1"));
    (py "tool_name", PyStr (py "Bash"));
    (py "tool_use_id", PyStr (py "toolu_01")) ].

(** The record [main] builds for a bare PermissionRequest notification. *)
Definition sample_request (w : world) : dict :=
  request_record w (event_data "PermissionRequest").

(** The status values of lines 157-253, and the event names they test. *)
Definition statuses : list string :=
  [ "processing"; "running_tool"; "waiting_for_approval"; "waiting_for_input";
    "notification"; "ended"; "compacting"; "unknown" ]%string.

Definition known_events : list string :=
  [ "UserPromptSubmit"; "PreToolUse"; "PostToolUse"; "PermissionRequest";
    "Notification"; "Stop"; "SubagentStop"; "SessionStart"; "SessionEnd";
    "PreCompact" ]%string.

(** * Facts *)

(** ** Text and dicts *)

Lemma str_eqb_refl (a : str) : str_eqb a a = true.
Proof.
  induction a as [|c a IH]; simpl; [reflexivity|].
  now rewrite N.eqb_refl.
Qed.

Lemma str_eqb_eq (a b : str) : str_eqb a b = true <-> a = b.
Proof.
  split; [|intros ->; apply str_eqb_refl].
  revert b; induction a as [|c a IH]; intros [|d b]; simpl;
    try discriminate; [reflexivity|].
  intros H; apply andb_true_iff in H as [Hc Hs].
  apply N.eqb_eq in Hc; apply IH in Hs; congruence.
Qed.

Lemma str_eqb_neq (a b : str) : str_eqb a b = false <-> a <> b.
Proof.
  rewrite <- str_eqb_eq; destruct (str_eqb a b); split; congruence.
Qed.

Arguments str_eqb : simpl never.

Lemma eq_str_true (v : pyval) (s : str) : eq_str v s = true <-> v = PyStr s.
Proof.
  destruct v; simpl; try (split; [discriminate|congruence]).
  rewrite str_eqb_eq; split; congruence.
Qed.

Lemma dict_get_set_same (d : dict) (k : str) (v : pyval) :
  dict_get (dict_set d k v) k = Some v.
Proof.
  induction d as [|[k' v'] d IH]; simpl.
  - now rewrite str_eqb_refl.
  - destruct (str_eqb k' k) eqn:E; simpl; rewrite E; auto.
Qed.

Lemma dict_get_set_other (d : dict) (k k' : str) (v : pyval) :
  k <> k' -> dict_get (dict_set d k v) k' = dict_get d k'.
Proof.
  intros Hk; induction d as [|[k0 v0] d IH]; simpl.
  - apply str_eqb_neq in Hk; now rewrite Hk.
  - destruct (str_eqb k0 k) eqn:E; simpl.
    + apply str_eqb_eq in E; subst k0.
      apply str_eqb_neq in Hk; now rewrite Hk.
    + now rewrite IH.
Qed.

Lemma get_set_same (d : dict) (k : str) (v default : pyval) :
  get (dict_set d k v) k default = v.
Proof. unfold get; now rewrite dict_get_set_same. Qed.

Lemma get_set_other (d : dict) (k k' : str) (v default : pyval) :
  k <> k' -> get (dict_set d k v) k' default = get d k' default.
Proof. intros H; unfold get; now rewrite dict_get_set_other. Qed.

Lemma lstrip_spaces (s : str) : forallb isspace s = true -> lstrip s = [].
Proof.
  induction s as [|c s IH]; simpl; [reflexivity|].
  intros H; apply andb_true_iff in H as [Hc Hs]; rewrite Hc; auto.
Qed.

Lemma strip_spaces (s : str) : forallb isspace s = true -> strip s = [].
Proof. intros H; unfold strip; now rewrite (lstrip_spaces s H). Qed.

(** The decoder on the byte sequences the examples use: an invalid start
    byte, two-, three- and four-byte forms, a surrogate, an overlong form. *)
Example utf8_decode_examples :
  utf8_decode [xff] = None
  /\ utf8_decode [xc3; xa9] = Some [233%N]
  /\ utf8_decode [xe2; x82; xac] = Some [8364%N]
  /\ utf8_decode [xf0; x9f; x98; x80] = Some [128512%N]
  /\ utf8_decode [xed; xa0; x80] = None
  /\ utf8_decode [xc0; x80] = None
  /\ utf8_decode (encode_ascii doc_allow) = Some doc_allow.
Proof. repeat split. Qed.

Example strip_example :
  strip [32; 9; 97; 32; 98; 13; 10]%N = [97; 32; 98]%N
  /\ strip [8195; 160; 10]%N = [].
Proof. split; reflexivity. Qed.

(** ** The channel authenticator *)

Lemma verify_socket_security_total (w : world) :
  exists ok reason, verify_socket_security w = ([], Ret (ok, reason)).
Proof.
  unfold verify_socket_security.
  destruct (socket_exists w); simpl; [|now do 2 eexists].
  destruct (socket_stat w) as [s|msg]; simpl; [|now do 2 eexists].
  destruct (st_uid s =? getuid w); simpl; [|now do 2 eexists].
  destruct (S_ISSOCK (st_mode s)); simpl; eauto.
Qed.

Lemma verify_ok_iff (w : world) :
  verify_socket_security w = ([], Ret (true, None)) <-> socket_trusted w.
Proof.
  unfold verify_socket_security, socket_trusted.
  destruct (socket_exists w); simpl.
  2:{ split; [discriminate|intros [H _]; discriminate]. }
  destruct (socket_stat w) as [s|msg]; simpl.
  2:{ split; [discriminate|intros [_ (s & H & _)]; discriminate]. }
  destruct (Z.eqb_spec (st_uid s) (getuid w)) as [Hu|Hu]; simpl.
  2:{ split; [discriminate|].
      intros [_ (s' & H & Hu' & _)]; injection H as <-; contradiction. }
  destruct (S_ISSOCK (st_mode s)) eqn:Hs; simpl.
  - split; [|reflexivity]. intros _; split; [reflexivity|]; eauto.
  - split; [discriminate|].
    intros [_ (s' & H & _ & Hs')]; injection H as <-; congruence.
Qed.

Lemma verify_not_ok (w : world) :
  ~ socket_trusted w ->
  exists reason, verify_socket_security w = ([], Ret (false, Some reason)).
Proof.
  intros Hn.
  assert (Hv : verify_socket_security w <> ([], Ret (true, None)))
    by (intros H; apply Hn, verify_ok_iff, H).
  revert Hv; unfold verify_socket_security.
  destruct (socket_exists w); simpl; [|intros _; now eexists].
  destruct (socket_stat w) as [s|msg]; simpl; [|intros _; now eexists].
  destruct (st_uid s =? getuid w); simpl; [|intros _; now eexists].
  destruct (S_ISSOCK (st_mode s)); simpl;
    [intros H; now elim H|intros _; now eexists].
Qed.

Ltac checks_case :=
  intros;
  repeat match goal with
         | H : _ /\ _ |- _ => destruct H
         | H : exists _, _ |- _ => destruct H
         | H : Done _ = Done _ |- _ => injection H as H; subst
         end;
  try discriminate; try congruence; try contradiction; eauto 6.

Lemma type_bits_of_mode (k : file_kind) (perm : Z) :
  0 <= perm < 4096 -> Z.land (mode_of k perm) 61440 = type_bits k.
Proof.
  intros Hp; unfold mode_of.
  assert (Hall : forallb (fun n => Z.land (Z.of_nat n) 61440 =? 0)
                         (seq 0 4096) = true) by (vm_compute; reflexivity).
  rewrite forallb_forall in Hall.
  assert (Hperm : Z.land perm 61440 = 0).
  { rewrite <- (Z2Nat.id perm) by lia.
    apply Z.eqb_eq, Hall, in_seq; lia. }
  rewrite Z.land_lor_distr_l, Hperm, Z.lor_0_r.
  destruct k; reflexivity.
Qed.

Ltac checks_conjuncts Hkind :=
  refine (conj _ (conj _ (conj _ (conj _ (conj _ (conj _ (conj _
            (conj _ Hkind))))))));
  repeat split; checks_case.

(** C6, amended. [verify_socket_security] never raises and has no effect: it
    returns a pair [(ok, reason)].  For a process whose real user id is
    [real_uid c] (what [os.getuid()] returns), [ok] is true exactly when the
    path exists, its owner is that real user id and the type bits of its
    mode ([st_mode & 0o170000]) are those of a socket file ([0o140000]);
    then there is no reason.  Otherwise a reason is given, and it names the
    first check that fails, in the order existence ("Socket does not
    exist"), ownership ("Socket owned by uid ..., expected ..."), kind
    ("Path is not a socket"); an [OSError] of [os.stat] is reported by its
    text.  The kind check accepts a socket file of either type and no fifo,
    device, directory or regular file.  The effective user id plays no
    part. *)
Theorem verify_socket_security_checks (w : world) (c : credentials) :
  runs_as c w ->
  exists ok reason,
    verify_socket_security w = ([], Ret (ok, reason))
    /\ (ok = true <->
        socket_exists w = true
        /\ exists s, socket_stat w = Done s /\ st_uid s = real_uid c
                     /\ Z.land (st_mode s) 61440 = 49152)
    /\ (ok = true -> reason = None)
    /\ (ok = false -> reason <> None)
    /\ (socket_exists w = false ->
        (ok, reason) = (false, Some (py "Socket does not exist")))
    /\ (forall msg, socket_exists w = true -> socket_stat w = OSErr msg ->
        (ok, reason) = (false, Some msg))
    /\ (forall s, socket_exists w = true -> socket_stat w = Done s ->
        st_uid s <> real_uid c ->
        (ok, reason)
        = (false, Some (py "Socket owned by uid " ++ str_of_Z (st_uid s)
                        ++ py ", expected " ++ str_of_Z (real_uid c))))
    /\ (forall s, socket_exists w = true -> socket_stat w = Done s ->
        st_uid s = real_uid c -> Z.land (st_mode s) 61440 <> 49152 ->
        (ok, reason) = (false, Some (py "Path is not a socket")))
    /\ (forall s kind perm, socket_stat w = Done s -> 0 <= perm < 4096 ->
        st_mode s = mode_of kind perm ->
        (Z.land (st_mode s) 61440 = 49152 <-> exists ty, kind = SocketFile ty)).
Proof.
  unfold runs_as; intros <-.
  assert (Hkind : forall s kind perm, socket_stat w = Done s ->
            0 <= perm < 4096 -> st_mode s = mode_of kind perm ->
            (Z.land (st_mode s) 61440 = 49152
             <-> exists ty, kind = SocketFile ty)).
  { intros s kind perm _ Hp ->; rewrite (type_bits_of_mode kind perm Hp).
    destruct kind; simpl; split; intros H; try discriminate H;
      try (destruct H as (ty & H); discriminate H); eauto. }
  unfold verify_socket_security, owned_by_other, S_ISSOCK, S_IFMT, S_IFSOCK.
  destruct (socket_exists w) eqn:He; simpl.
  2:{ exists false, (Some (py "Socket does not exist")).
      checks_conjuncts Hkind. }
  destruct (socket_stat w) as [s|msg] eqn:Hst; simpl.
  2:{ exists false, (Some msg); checks_conjuncts Hkind. }
  destruct (Z.eqb_spec (st_uid s) (getuid w)) as [Hu|Hu]; simpl.
  2:{ eexists false, _; checks_conjuncts Hkind. }
  destruct (Z.eqb_spec (Z.land (st_mode s) 61440) 49152) as [Hs|Hs]; simpl.
  - exists true, None; checks_conjuncts Hkind.
  - eexists false, _; checks_conjuncts Hkind.
Qed.

(** ** The credential store *)

Lemma read_auth_token_cases (w : world) :
  (exists t, read_auth_token w = ([], Ret t))
  \/ read_auth_token w = ([], Raise UnicodeDecodeError).
Proof.
  unfold read_auth_token, open_read.
  destruct (token_exists w); simpl.
  - destruct (token_stat w) as [s|msg]; simpl; [|now eauto].
    destruct (st_uid s =? getuid w); simpl; [|now eauto].
    destruct (Z.land (st_mode s) 63 =? 0); simpl; [|now eauto].
    destruct (token_read w); simpl; eauto.
  - destruct (token_read w); simpl; eauto.
Qed.

(** The part of C5 that holds.  A token file that is owned by another user,
    or that grants any permission to group or others, reads as absent
    whatever it contains; so does one for which [os.stat] or the read raises
    [OSError]. *)
Theorem read_auth_token_unsafe_absent (w : world) :
  (forall s, token_exists w = true -> token_stat w = Done s ->
             st_uid s <> getuid w \/ Z.land (st_mode s) 63 <> 0 ->
             read_auth_token w = ([], Ret None))
  /\ (forall msg, token_exists w = true -> token_stat w = OSErr msg ->
                  read_auth_token w = ([], Ret None))
  /\ (forall msg, token_read w = ReadOSError msg ->
                  read_auth_token w = ([], Ret None)).
Proof.
  unfold read_auth_token, open_read; repeat split.
  - intros s -> -> Hbad; simpl.
    destruct (Z.eqb_spec (st_uid s) (getuid w)); simpl; [|reflexivity].
    destruct (Z.eqb_spec (Z.land (st_mode s) 63) 0); simpl; [|reflexivity].
    tauto.
  - intros msg -> ->; reflexivity.
  - intros msg ->.
    destruct (token_exists w); simpl; [|reflexivity].
    destruct (token_stat w) as [s|msg']; simpl; [|reflexivity].
    destruct (st_uid s =? getuid w); simpl; [|reflexivity].
    destruct (Z.land (st_mode s) 63 =? 0); reflexivity.
Qed.

(** C5, where the code departs from it.  The token file of this world is
    owned by the user with mode 0600, and holds bytes that are not text:
    [f.read()] raises [UnicodeDecodeError], which [except (OSError, IOError)]
    does not catch, and the error reaches the caller. *)
Theorem read_auth_token_undecodable_raises :
  read_auth_token (app_world ReadUndecodable (Done tt) (Done []))
  = ([], Raise UnicodeDecodeError).
Proof. reflexivity. Qed.

Section Facts.

Variable json_loads : str -> call pyval.

(** ** The transport *)

Lemma get_status_after_token (state : dict) (v default : pyval) :
  get (dict_set state (py "_auth_token") v) (py "status") default
  = get state (py "status") default.
Proof. apply get_set_other; intros H; vm_compute in H; discriminate. Qed.

Lemma send_event_untrusted (w : world) (state : dict) :
  ~ socket_trusted w -> send_event json_loads w state = ([], Ret PyNone).
Proof.
  intros H; destruct (verify_not_ok w H) as [reason Hv].
  unfold send_event; now rewrite Hv.
Qed.

Lemma send_event_no_token (w : world) (state : dict) :
  read_auth_token w = ([], Ret None) \/ read_auth_token w = ([], Ret (Some [])) ->
  send_event json_loads w state = ([], Ret PyNone).
Proof.
  intros H; unfold send_event.
  destruct (verify_socket_security_total w) as (ok & reason & ->).
  destruct ok; simpl; [|reflexivity].
  destruct H as [-> | ->]; reflexivity.
Qed.

(** Every way [send_event] can go: one case per result of each call it
    makes, in the order of the calls. *)
Ltac case_call x :=
  try match goal with |- context [x] => destruct x eqn:?; simpl end.

Ltac send_cases w state :=
  unfold send_event, decode, loads;
  let ok := fresh "ok" in
  destruct (verify_socket_security_total w) as (ok & ? & ->);
  destruct ok; simpl;
  try match goal with
      | |- context [read_auth_token w] =>
        let Hread := fresh "Hread" in
        destruct (read_auth_token_cases w) as [[[[|? ?]|] Hread] | Hread];
        rewrite Hread; simpl
      end;
  try match goal with
      | |- context [socket_new w] => destruct (socket_new w) as [[]|?]; simpl
      end;
  try match goal with
      | |- context [connect w] => destruct (connect w) as [[]|?] eqn:?; simpl
      end;
  try match goal with
      | |- context [sendall w] => destruct (sendall w) as [[]|?]; simpl
      end;
  rewrite ?get_status_after_token;
  fold (is_request state);
  case_call (is_request state);
  try match goal with
      | |- context [recv w] => destruct (recv w) as [[|? ?]|?] eqn:?; simpl
      end;
  try match goal with
      | |- context [close w] => destruct (close w) as [[]|?]; simpl
      end;
  try match goal with
      | |- context [utf8_decode ?b] => destruct (utf8_decode b) eqn:?; simpl
      end;
  try match goal with
      | |- context [json_loads ?s] => destruct (json_loads s) eqn:?; simpl
      end;
  try match goal with
      | |- context [send_handles ?e] => destruct (send_handles e) eqn:?; simpl
      end.

Lemma send_event_silent (w : world) (state : dict) :
  existsb (fun e => match e with EvPrint _ => true | _ => false end)
          (fst (send_event json_loads w state)) = false.
Proof. send_cases w state; reflexivity. Qed.

Lemma send_event_one_connection (w : world) (state : dict) :
  (List.length (filter is_connect (fst (send_event json_loads w state))) <= 1)%nat.
Proof. send_cases w state; auto. Qed.

Lemma send_event_recv_only_request (w : world) (state : dict) :
  existsb is_recv (fst (send_event json_loads w state)) = true ->
  is_request state = true.
Proof. send_cases w state; auto; discriminate. Qed.


(** C10. A token file with safe owner and mode whose content is empty or
    only whitespace reads as the empty string, and [send_event] then returns
    [None] without a single socket call, as for an absent credential. *)
Theorem blank_token_is_absent (w : world) (state : dict)
    (s : stat_result) (content : str) :
  token_exists w = true ->
  token_stat w = Done s ->
  st_uid s = getuid w ->
  Z.land (st_mode s) 63 = 0 ->
  token_read w = ReadText content ->
  forallb isspace content = true ->
  read_auth_token w = ([], Ret (Some []))
  /\ send_event json_loads w state = ([], Ret PyNone).
Proof.
  intros He Hs Hu Hm Hr Hc.
  assert (Hread : read_auth_token w = ([], Ret (Some []))).
  { unfold read_auth_token, open_read.
    rewrite He, Hs; simpl.
    rewrite Hu, Z.eqb_refl, Hm, Hr; simpl.
    now rewrite (strip_spaces content Hc). }
  split; [exact Hread|].
  apply send_event_no_token; now right.
Qed.

(** C4. Whatever the world, [send_event] calls [recv] at most once, and only
    for a record whose status is [waiting_for_approval].  When the socket
    and the token are accepted and the message has been sent: for such a
    record the next call is one [recv(4096)] under the 300 second timeout
    set on the socket, and a timeout (an [OSError]) yields [None]; for any
    other record the next and last call is [close], and the result is
    [None]. *)
Theorem send_event_awaits_reply_iff_request (w : world) (state : dict) :
  let t := fst (send_event json_loads w state) in
  (existsb is_recv t = true -> is_request state = true)
  /\ (List.length (filter is_recv t) <= 1)%nat
  /\ (forall token,
        socket_trusted w ->
        read_auth_token w = ([], Ret (Some token)) -> token <> [] ->
        socket_new w = Done tt -> connect w = Done tt -> sendall w = Done tt ->
        let sent := PyDict (dict_set state (py "_auth_token") (PyStr token)) in
        let send := [EvSocket; EvSetTimeout 300; EvConnect; EvSendall sent] in
        if is_request state
        then (exists rest, t = send ++ EvRecv 4096 :: rest
                           /\ existsb is_recv rest = false)
             /\ (forall msg, recv w = OSErr msg ->
                   send_event json_loads w state
                   = (send ++ [EvRecv 4096], Ret PyNone))
        else send_event json_loads w state = (send ++ [EvClose], Ret PyNone)).
Proof.
  cbv zeta; split; [apply send_event_recv_only_request|].
  split; [send_cases w state; auto|].
  intros token Ht Hread Hne Hn Hc Hs.
  apply verify_ok_iff in Ht.
  unfold send_event, decode, loads; rewrite Ht; simpl; rewrite Hread; simpl.
  destruct token as [|c token]; [congruence|]; simpl.
  rewrite Hn; simpl; rewrite Hc; simpl; rewrite Hs; simpl.
  rewrite get_status_after_token; fold (is_request state).
  destruct (is_request state); simpl.
  - split.
    + destruct (recv w) as [[|? ?]|?]; simpl;
        try (destruct (close w) as [[]|?]; simpl);
        try match goal with
            | |- context [utf8_decode ?b] => destruct (utf8_decode b); simpl
            end;
        try match goal with
            | |- context [json_loads ?s] => destruct (json_loads s); simpl
            end;
        try match goal with
            | |- context [send_handles ?e] => destruct (send_handles e); simpl
            end;
        eexists; split; reflexivity.
    + intros msg ->; reflexivity.
  - destruct (close w) as [[]|?]; reflexivity.
Qed.

(** C3, where the code departs from it.  The application answers the single
    byte 0xFF to a permission request: [response.decode()] raises
    [UnicodeDecodeError], which the [except] clause of [send_event] does not
    list, and [send_event] raises to [main].  So it does, before any socket
    call, when the token file is not text. *)
Theorem send_event_undecodable_reply_raises :
  let w := running (Done [xff]) in
  let w' := app_world ReadUndecodable (Done tt) (Done []) in
  snd (send_event json_loads w (sample_request w)) = Raise UnicodeDecodeError
  /\ send_event json_loads w' (sample_request w')
     = ([], Raise UnicodeDecodeError).
Proof. split; reflexivity. Qed.

(** When the connection is opened and then [sendall], or [recv] (a
    timeout), raises [OSError], [send_event] returns [None] without a call
    of [sock.close()] of its own (lines 122 and 126 are not reached).  What
    becomes of the descriptor then is decided when the interpreter releases
    the local [sock] object, which the trace does not record. *)
Lemma send_event_error_paths_without_close_call :
  let w1 := app_world (ReadText (py "0123abcd")) (OSErr (py "Broken pipe"))
                      (Done []) in
  let w2 := running (OSErr (py "timed out")) in
  let r1 := send_event json_loads w1 (sample_request w1) in
  let r2 := send_event json_loads w2 (sample_request w2) in
  (connection_opened w1 (fst r1) = true
   /\ existsb is_close (fst r1) = false /\ snd r1 = Ret PyNone)
  /\ (connection_opened w2 (fst r2) = true
      /\ existsb is_close (fst r2) = false /\ snd r2 = Ret PyNone).
Proof. cbv zeta; repeat split. Qed.

(** ** The classifier and the renderer *)

Ltac eval_literals :=
  repeat match goal with
         | |- context [str_eqb (py ?a) (py ?b)] =>
           let v := eval vm_compute in (str_eqb (py a) (py b)) in
           change (str_eqb (py a) (py b)) with v; cbv iota
         end.

Ltac other_key :=
  let H := fresh in intros H; vm_compute in H; discriminate.

Ltac status_lookup :=
  unfold set_tool_use_id, set_tool, set_status;
  repeat match goal with
         | |- context [if truthy ?v then _ else _] => destruct (truthy v)
         end;
  repeat rewrite dict_get_set_other by other_key;
  rewrite ?dict_get_set_same.

Lemma stdout_app (t t' : trace) :
  existsb (fun e => match e with EvPrint _ => true | _ => false end) t = false ->
  flat_map (fun e => match e with EvPrint d => [d] | _ => [] end) (t ++ t')
  = flat_map (fun e => match e with EvPrint d => [d] | _ => [] end) t'.
Proof.
  induction t as [|e t IH]; simpl; [reflexivity|].
  destruct e; simpl; auto; discriminate.
Qed.

Lemma main_on_object (w : world) (stdin : str) (data : dict) :
  json_loads stdin = Returns (PyDict data) ->
  main json_loads w stdin =
  match classify data (build_state w data) with
  | Request state =>
    response <- send_event json_loads w state ;; render response
  | Suppressed => sys_exit 0
  | FireAndForget state => send_event json_loads w state ;;; ret tt
  end.
Proof.
  intros H; unfold main, loads; rewrite H; simpl.
  destruct (classify data (build_state w data)); simpl;
    repeat rewrite app_nil_r; try reflexivity;
    match goal with |- (?a, ?b) = ?m => now destruct m as [? [| |]] end.
Qed.

Lemma classify_request (data state : dict) :
  eq_str (get data (py "hook_event_name") (PyStr [])) (py "PermissionRequest")
  = true ->
  classify data state
  = Request (set_tool data (set_status state "waiting_for_approval")).
Proof.
  intros H; apply eq_str_true in H; unfold classify; rewrite H; simpl.
  now eval_literals.
Qed.

Lemma classify_suppressed (data state : dict) :
  eq_str (get data (py "hook_event_name") (PyStr [])) (py "Notification")
  = true ->
  eq_str (get data (py "notification_type") PyNone) (py "permission_prompt")
  = true ->
  classify data state = Suppressed.
Proof.
  intros H Hn; apply eq_str_true in H; unfold classify; rewrite H, Hn; simpl.
  now eval_literals.
Qed.

Lemma render_not_true (v : pyval) :
  truthy v = false -> render v = ([], Exit 0).
Proof. intros H; unfold render; now rewrite H. Qed.

Lemma render_dict (r : dict) :
  let decision := get r (py "decision") (PyStr (py "ask")) in
  let reason := get r (py "reason") (PyStr []) in
  render (PyDict r) =
  if truthy (PyDict r) && eq_str decision (py "allow")
  then ([EvPrint allow_output], Exit 0)
  else if truthy (PyDict r) && eq_str decision (py "deny")
  then ([EvPrint (deny_output (py_or reason denied_by_user))], Exit 0)
  else ([], Exit 0).
Proof.
  cbv zeta; unfold render, py_get.
  destruct (truthy (PyDict r)); simpl; [|reflexivity].
  destruct (eq_str _ (py "allow")); simpl; [reflexivity|].
  destruct (eq_str _ (py "deny")); reflexivity.
Qed.

Lemma send_event_stdout (w : world) (state : dict) (k : pyval -> M unit) :
  stdout (response <- send_event json_loads w state ;; k response)
  = match snd (send_event json_loads w state) with
    | Ret response => stdout (k response)
    | _ => []
    end.
Proof.
  pose proof (send_event_silent w state) as Hs.
  unfold stdout, bind.
  destruct (send_event json_loads w state) as [t [response|e|c]]; simpl in *.
  - now apply stdout_app.
  - rewrite <- (app_nil_r t); now rewrite stdout_app.
  - rewrite <- (app_nil_r t); now rewrite stdout_app.
Qed.

(** C1. For a PermissionRequest notification, let [response] be what
    [send_event] returned after the trace [t].  Every directive [main]
    prints is the object
    [{"hookSpecificOutput": {"hookEventName": "PermissionRequest",
    "decision": d}}].  If the reply is an object whose decision is allow,
    [main] prints the one directive with [d = {"behavior": "allow"}], no
    reason or message in it, and exits 0.  If the decision is deny with a
    non-empty reason [x], it prints the directive with
    [d = {"behavior": "deny", "message": x}] and exits 0; with no reason or
    an empty one the message is the text "Denied by user via ClaudeIsland".
    If the decision is ask (also by default, when the reply has none), or
    there is no reply ([None], or a reply that tests false), it prints
    nothing and exits 0. *)
Theorem main_renders_decision (w : world) (stdin : str) (data : dict)
    (t : trace) (response : pyval) :
  json_loads stdin = Returns (PyDict data) ->
  eq_str (get data (py "hook_event_name") (PyStr [])) (py "PermissionRequest")
  = true ->
  send_event json_loads w (request_record w data) = (t, Ret response) ->
  let run := main json_loads w stdin in
  let decision r := get r (py "decision") (PyStr (py "ask")) in
  let reason r := get r (py "reason") (PyStr []) in
  let directive d :=
    PyDict [ (py "hookSpecificOutput",
              PyDict [ (py "hookEventName", PyStr (py "PermissionRequest"));
                       (py "decision", PyDict d) ]) ] in
  let allow := directive [ (py "behavior", PyStr (py "allow")) ] in
  let deny message :=
    directive [ (py "behavior", PyStr (py "deny"));
                (py "message", PyStr message) ] in
  (forall r, response = PyDict r -> eq_str (decision r) (py "allow") = true ->
     run = (t ++ [EvPrint allow], Exit 0) /\ stdout run = [allow])
  /\ (forall r x, response = PyDict r ->
        eq_str (decision r) (py "deny") = true ->
        reason r = PyStr x -> x <> [] ->
        run = (t ++ [EvPrint (deny x)], Exit 0) /\ stdout run = [deny x])
  /\ (forall r, response = PyDict r ->
        eq_str (decision r) (py "deny") = true ->
        dict_get r (py "reason") = None \/ reason r = PyStr [] ->
        run = (t ++ [EvPrint (deny (py "Denied by user via ClaudeIsland"))],
               Exit 0)
        /\ stdout run = [deny (py "Denied by user via ClaudeIsland")])
  /\ (forall r, response = PyDict r ->
        eq_str (decision r) (py "ask") = true ->
        run = (t, Exit 0) /\ stdout run = [])
  /\ (response = PyNone \/ truthy response = false ->
      run = (t, Exit 0) /\ stdout run = []).
Proof.
  intros Hin Hev Hsend; cbv zeta.
  assert (Hrun : main json_loads w stdin
                 = (t ++ fst (render response), snd (render response))).
  { rewrite (main_on_object w stdin data Hin).
    rewrite (classify_request data _ Hev); fold (request_record w data).
    unfold bind; now rewrite Hsend. }
  assert (Hout : stdout (main json_loads w stdin) = stdout (render response)).
  { rewrite (main_on_object w stdin data Hin).
    rewrite (classify_request data _ Hev); fold (request_record w data).
    rewrite send_event_stdout; now rewrite Hsend. }
  rewrite Hout, Hrun; clear Hrun Hout.
  assert (Hgiven : forall r lit, py lit <> py "ask" ->
            eq_str (get r (py "decision") (PyStr (py "ask"))) (py lit) = true ->
            truthy (PyDict r) = true).
  { intros [|p r] lit Hl H; [|reflexivity].
    apply eq_str_true in H; unfold get in H; simpl in H; congruence. }
  split; [|split; [|split; [|split]]].
  - intros r -> Hd; rewrite render_dict; cbv zeta.
    rewrite (Hgiven r "allow"%string) by (other_key || exact Hd).
    rewrite Hd; simpl; split; reflexivity.
  - intros r x -> Hd Hr Hx; rewrite render_dict; cbv zeta.
    rewrite (Hgiven r "deny"%string) by (other_key || exact Hd).
    apply eq_str_true in Hd; rewrite Hd, Hr; simpl; eval_literals; simpl.
    unfold py_or; destruct x; [congruence|]; simpl; split; reflexivity.
  - intros r -> Hd Hr; rewrite render_dict; cbv zeta.
    rewrite (Hgiven r "deny"%string) by (other_key || exact Hd).
    apply eq_str_true in Hd; rewrite Hd; simpl; eval_literals; simpl.
    assert (Hfalse : py_or (get r (py "reason") (PyStr [])) denied_by_user
                     = denied_by_user).
    { destruct Hr as [Hr|Hr]; [unfold get; rewrite Hr|rewrite Hr]; reflexivity. }
    rewrite Hfalse; split; reflexivity.
  - intros r -> Hd; rewrite render_dict; cbv zeta.
    apply eq_str_true in Hd; rewrite Hd; simpl; eval_literals; simpl.
    rewrite !andb_false_r; simpl; rewrite app_nil_r; auto.
  - intros H.
    assert (Hf : truthy response = false) by (destruct H as [->|H]; auto).
    rewrite (render_not_true response Hf); simpl; rewrite app_nil_r; auto.
Qed.

(** C8. A Notification whose subtype is [permission_prompt] is dropped:
    [main] exits 0 having printed nothing and made no socket call, so no
    record is sent and no connection is attempted, whatever the world. *)
Theorem main_skips_permission_prompt (w : world) (stdin : str) (data : dict) :
  json_loads stdin = Returns (PyDict data) ->
  eq_str (get data (py "hook_event_name") (PyStr [])) (py "Notification")
  = true ->
  eq_str (get data (py "notification_type") PyNone) (py "permission_prompt")
  = true ->
  let run := main json_loads w stdin in
  run = ([], Exit 0)
  /\ exit_code run = 0
  /\ stdout run = []
  /\ contacts_authority run = false.
Proof.
  intros Hin Hev Hnt; cbv zeta.
  rewrite (main_on_object w stdin data Hin).
  rewrite (classify_suppressed data _ Hev Hnt).
  repeat split.
Qed.

(** One branch of the if/elif chain: [event] is known by the tests made so
    far, and the record is a chain of [dict_set] on the initial one. *)
Ltac settle_tests :=
  repeat match goal with
         | E : eq_str ?e _ = true |- _ =>
           apply eq_str_true in E; try rewrite E in *; clear E
         | E : eq_str ?e _ = false |- _ => rewrite ?E in *; clear E
         end;
  simpl; eval_literals; simpl.

Ltac known_test :=
  match goal with
  | |- (forall k, _ -> str_eqb (py ?x) _ = false) -> _ =>
    let H := fresh in
    intros H; exfalso; specialize (H x); rewrite str_eqb_refl in H;
    assert (true = false) by (apply H; auto 20); discriminate
  end.

Ltac branch_facts Hmain Hreq :=
  repeat split;
  try discriminate;
  try (rewrite Hreq; discriminate);
  try (status_lookup; reflexivity);
  try (simpl; tauto);
  try known_test;
  try (let stdin := fresh "stdin" in
       let Hin := fresh "Hin" in
       intros stdin Hin; rewrite (Hmain stdin Hin), Hreq; reflexivity).

Ltac branch_record status Hmain Hreq :=
  intros Hmain;
  (split; [split; [discriminate|let H := fresh in intros H; discriminate H]
          |intros _]);
  (eexists _, status; split; [auto|]);
  match goal with
  | |- dict_get ?s _ = _ /\ _ =>
    assert (Hreq : is_request s = false)
      by (unfold is_request, get; status_lookup; simpl; now eval_literals)
  end;
  branch_facts Hmain Hreq.

Ltac branch status :=
  let Hmain := fresh "Hmain" in
  let Hreq := fresh "Hreq" in
  unfold set_tool_use_id;
  repeat match goal with
         | |- context [if truthy ?v then _ else _] => destruct (truthy v)
         end;
  branch_record status Hmain Hreq.

(** C7, amended.  For every notification object, the classifier drops it
    exactly when it is a Notification with subtype [permission_prompt];
    otherwise it yields one record, which [main] hands to [send_event] once.
    The record has a status among the eight of the code; it is a request
    exactly when the event is PermissionRequest, and exactly then its status
    is [waiting_for_approval], the one [send_event] waits on; an event name
    that is none of the ten known ones gets the status [unknown]. *)
Theorem classify_total (w : world) (data : dict) :
  let event := get data (py "hook_event_name") (PyStr []) in
  let subtype := get data (py "notification_type") PyNone in
  let c := classify data (build_state w data) in
  (c = Suppressed <->
   eq_str event (py "Notification") && eq_str subtype (py "permission_prompt")
   = true)
  /\ (c <> Suppressed ->
      exists state status,
        (c = Request state \/ c = FireAndForget state)
        /\ dict_get state (py "status") = Some (PyStr (py status))
        /\ In status statuses
        /\ (c = Request state <-> eq_str event (py "PermissionRequest") = true)
        /\ (c = Request state <-> is_request state = true)
        /\ ((forall k, In k known_events -> eq_str event (py k) = false) ->
            status = "unknown"%string)
        /\ (forall stdin, json_loads stdin = Returns (PyDict data) ->
            main json_loads w stdin =
            response <- send_event json_loads w state ;;
            if is_request state then render response else ret tt)).
Proof.
  cbv zeta.
  pose proof (fun stdin H => main_on_object w stdin data H) as Hmain.
  revert Hmain; unfold classify; cbv zeta.
  set (event := get data (py "hook_event_name") (PyStr [])).
  set (subtype := get data (py "notification_type") PyNone).
  generalize (build_state w data) as st; intros st.
  clearbody event subtype.
  destruct (eq_str event (py "UserPromptSubmit")) eqn:E1.
  { settle_tests; branch "processing"%string. }
  destruct (eq_str event (py "PreToolUse")) eqn:E2.
  { settle_tests; branch "running_tool"%string. }
  destruct (eq_str event (py "PostToolUse")) eqn:E3.
  { settle_tests; branch "processing"%string. }
  destruct (eq_str event (py "PermissionRequest")) eqn:E4.
  { settle_tests; intros Hmain.
    split; [split; [discriminate|intros H; discriminate H]|intros _].
    eexists _, "waiting_for_approval"%string; split; [auto|].
    assert (Hreq : is_request
                     (set_tool data (set_status st "waiting_for_approval"))
                   = true)
      by (unfold is_request, get; status_lookup; simpl; now eval_literals).
    repeat split; auto;
      try (status_lookup; reflexivity); try (simpl; tauto); try known_test.
    intros stdin Hin; now rewrite (Hmain stdin Hin), Hreq. }
  destruct (eq_str event (py "Notification")) eqn:E5.
  { destruct (eq_str subtype (py "permission_prompt")) eqn:Ep.
    - settle_tests; intros _; split; [tauto|congruence].
    - destruct (eq_str subtype (py "idle_prompt")) eqn:Ei; settle_tests.
      + branch "waiting_for_input"%string.
      + branch "notification"%string. }
  destruct (eq_str event (py "Stop")) eqn:E6.
  { settle_tests; branch "waiting_for_input"%string. }
  destruct (eq_str event (py "SubagentStop")) eqn:E7.
  { settle_tests; branch "waiting_for_input"%string. }
  destruct (eq_str event (py "SessionStart")) eqn:E8.
  { settle_tests; branch "waiting_for_input"%string. }
  destruct (eq_str event (py "SessionEnd")) eqn:E9.
  { settle_tests; branch "ended"%string. }
  destruct (eq_str event (py "PreCompact")) eqn:E10.
  { settle_tests; branch "compacting"%string. }
  settle_tests; branch "unknown"%string.
Qed.


(** ** What holds of the error paths *)

Lemma read_auth_token_text (w : world) :
  text_token w = true -> exists t, read_auth_token w = ([], Ret t).
Proof.
  intros H; destruct (read_auth_token_cases w) as [Hr|Hr]; [exact Hr|].
  exfalso; revert H Hr; unfold text_token, read_auth_token, open_read.
  destruct (token_exists w); simpl.
  - destruct (token_stat w) as [s|msg]; simpl; [|discriminate].
    destruct (st_uid s =? getuid w); simpl; [|discriminate].
    destruct (Z.land (st_mode s) 63 =? 0); simpl; [|discriminate].
    destruct (token_read w); simpl; discriminate.
  - destruct (token_read w); simpl; discriminate.
Qed.

(** The part of C3 that holds, and spec 8, first property.  When the socket
    check fails, or the token reads as absent, [send_event] returns [None]
    without any socket call.  When the token file holds text and the reply,
    if one is received, is UTF-8 text on which [json.loads] returns or raises
    an exception that line 129 lists, [send_event] returns, whatever else
    the world does: refused connection, failed send, timeout, a reply that
    is not JSON. *)
Theorem send_event_swallows_transport_errors (w : world) (state : dict) :
  (~ socket_trusted w -> send_event json_loads w state = ([], Ret PyNone))
  /\ (read_auth_token w = ([], Ret None) ->
      send_event json_loads w state = ([], Ret PyNone))
  /\ (text_token w = true -> caught_reply json_loads w = true ->
      exists v, snd (send_event json_loads w state) = Ret v).
Proof.
  split; [apply send_event_untrusted|].
  split; [intros H; apply send_event_no_token; now left|].
  intros Ht Hr; apply read_auth_token_text in Ht.
  revert Hr; unfold caught_reply.
  send_cases w state; intros Hr;
    try (destruct Ht as [? Ht]; congruence);
    try discriminate Hr; eauto.
Qed.




(** One connection, closed after the exchange.  A run of [main] calls
    [connect] at most once.  Whenever [send_event] has sent its message and,
    for a request, [recv] has returned, it calls [close]. *)
Theorem one_connection_closed_after_exchange (w : world) (stdin : str)
    (state : dict) :
  (List.length (filter is_connect (fst (main json_loads w stdin))) <= 1)%nat
  /\ (socket_trusted w ->
      (exists c token, read_auth_token w = ([], Ret (Some (c :: token)))) ->
      socket_new w = Done tt -> connect w = Done tt -> sendall w = Done tt ->
      (is_request state = true -> exists b, recv w = Done b) ->
      existsb is_close (fst (send_event json_loads w state)) = true).
Proof.
  split.
  - unfold main, loads.
    destruct (json_loads stdin) as [[| | | | | |data]|e]; simpl; auto;
      [|destruct e; simpl; auto].
    destruct (classify data (build_state w data)) as [state'| |state'];
      simpl; auto.
    + pose proof (send_event_one_connection w state') as H.
      unfold bind; destruct (send_event json_loads w state') as [t [v| |]];
        simpl in *; auto.
      rewrite filter_app, length_app.
      assert (Hr : filter is_connect (fst (render v)) = []).
      { unfold render, py_get.
        destruct (truthy v); simpl; [|reflexivity].
        destruct v; simpl; try reflexivity.
        destruct (eq_str _ (py "allow")); simpl; [reflexivity|].
        destruct (eq_str _ (py "deny")); reflexivity. }
      rewrite Hr; simpl; lia.
    + pose proof (send_event_one_connection w state') as H.
      unfold bind; destruct (send_event json_loads w state') as [t [v| |]];
        simpl in *; auto.
      now rewrite app_nil_r.
  - intros Ht (c & token & Hread) Hn Hc Hs Hrecv.
    apply verify_ok_iff in Ht.
    unfold send_event, decode, loads; rewrite Ht; simpl; rewrite Hread; simpl.
    rewrite Hn; simpl; rewrite Hc; simpl; rewrite Hs; simpl.
    rewrite get_status_after_token; fold (is_request state).
    destruct (is_request state); simpl.
    + destruct (Hrecv eq_refl) as [b ->]; simpl.
      destruct (close w) as [[]|?]; simpl; [|reflexivity].
      destruct b; simpl; [reflexivity|].
      destruct (utf8_decode _); simpl; [|reflexivity].
      destruct (json_loads _) as [?|e]; simpl; [reflexivity|].
      destruct (send_handles e); reflexivity.
    + destruct (close w) as [[]|?]; reflexivity.
Qed.

(** ** The credential, as returned *)

Lemma lstrip_split (s : str) :
  exists p, s = p ++ lstrip s /\ forallb isspace p = true.
Proof.
  induction s as [|c s (p & Hs & Hp)]; simpl; [now exists []|].
  destruct (isspace c) eqn:E.
  - exists (c :: p); simpl; rewrite E, Hp; split; [congruence|reflexivity].
  - now exists [].
Qed.

Lemma lstrip_head (s : str) (c : N) (r : str) :
  lstrip s = c :: r -> isspace c = false.
Proof.
  induction s as [|d s IH]; simpl; [discriminate|].
  destruct (isspace d) eqn:E; [exact IH|].
  intros H; injection H as <- _; exact E.
Qed.

Lemma strip_head (s : str) (c : N) (r : str) :
  strip s = c :: r -> isspace c = false.
Proof.
  unfold strip; intros H.
  destruct (lstrip_split (rev (lstrip s))) as (p & Hs & _).
  apply (f_equal (@rev N)) in Hs.
  rewrite rev_involutive, rev_app_distr, H in Hs.
  simpl in Hs; now apply lstrip_head in Hs.
Qed.

Lemma strip_last (s front : str) (c : N) :
  strip s = front ++ [c] -> isspace c = false.
Proof.
  unfold strip; intros H.
  apply (f_equal (@rev N)) in H.
  rewrite rev_involutive, rev_app_distr in H; simpl in H.
  now apply lstrip_head in H.
Qed.

Lemma strip_empty (s : str) : strip s = [] <-> forallb isspace s = true.
Proof.
  split; [|apply strip_spaces].
  unfold strip; intros H.
  apply (f_equal (@rev N)) in H; rewrite rev_involutive in H; simpl in H.
  destruct (lstrip_split (rev (lstrip s))) as (p & Hs & Hp).
  rewrite H, app_nil_r in Hs.
  assert (Hu : forallb isspace (lstrip s) = true).
  { rewrite <- (rev_involutive (lstrip s)), Hs.
    rewrite forallb_forall in *; intros x Hx; apply Hp; now apply in_rev. }
  destruct (lstrip_split s) as (q & Hq & Hqs).
  destruct (lstrip s) as [|c r] eqn:E.
  - rewrite Hq, app_nil_r; exact Hqs.
  - apply lstrip_head in E; simpl in Hu; rewrite E in Hu; discriminate.
Qed.

Lemma read_auth_token_content (w : world) (t : trace) (token : str) :
  read_auth_token w = (t, Ret (Some token)) ->
  exists content, token_read w = ReadText content /\ token = strip content.
Proof.
  unfold read_auth_token, open_read.
  destruct (token_exists w); simpl.
  - destruct (token_stat w) as [s|msg]; simpl; [|discriminate].
    destruct (st_uid s =? getuid w); simpl; [|discriminate].
    destruct (Z.land (st_mode s) 63 =? 0); simpl; [|discriminate].
    destruct (token_read w) as [c|msg|]; simpl; try discriminate.
    intros H; injection H as _ <-; eauto.
  - destruct (token_read w) as [c|msg|]; simpl; try discriminate.
    intros H; injection H as _ <-; eauto.
Qed.

(** A token is returned exactly from a file that reads as text and, when
    [os.path.exists] reported it, passed the owner and mode checks; the
    token is the content stripped.  When [os.path.exists] reported no file
    and the read succeeds all the same, no check is made. *)
Theorem read_auth_token_returns_token (w : world) (token : str) :
  read_auth_token w = ([], Ret (Some token))
  <-> exists content,
        token_read w = ReadText content /\ token = strip content
        /\ (token_exists w = true ->
            exists s, token_stat w = Done s /\ st_uid s = getuid w
                      /\ Z.land (st_mode s) 63 = 0).
Proof.
  unfold read_auth_token, open_read.
  destruct (token_exists w); simpl.
  - destruct (token_stat w) as [s|msg]; simpl.
    2:{ split; [discriminate|].
        intros (c & _ & _ & H); destruct (H eq_refl) as (s & Hs & _).
        discriminate. }
    destruct (Z.eqb_spec (st_uid s) (getuid w)) as [Hu|Hu]; simpl.
    2:{ split; [discriminate|].
        intros (c & _ & _ & H); destruct (H eq_refl) as (s' & Hs & Hu' & _).
        injection Hs as <-; contradiction. }
    destruct (Z.eqb_spec (Z.land (st_mode s) 63) 0) as [Hm|Hm]; simpl.
    2:{ split; [discriminate|].
        intros (c & _ & _ & H); destruct (H eq_refl) as (s' & Hs & _ & Hm').
        injection Hs as <-; contradiction. }
    destruct (token_read w) as [c|msg|]; simpl.
    + split.
      * intros H; injection H as <-; exists c; repeat split; eauto.
      * intros (c' & Hc & -> & _); injection Hc as <-; reflexivity.
    + split; [discriminate|intros (c & Hc & _); discriminate].
    + split; [discriminate|intros (c & Hc & _); discriminate].
  - destruct (token_read w) as [c|msg|]; simpl.
    + split.
      * intros H; injection H as <-; exists c; repeat split; discriminate.
      * intros (c' & Hc & -> & _); injection Hc as <-; reflexivity.
    + split; [discriminate|intros (c & Hc & _); discriminate].
    + split; [discriminate|intros (c & Hc & _); discriminate].
Qed.

(** A token that [read_auth_token] returns neither starts nor ends with a
    whitespace character, and it is empty exactly when the file holds
    nothing but whitespace. *)
Theorem read_auth_token_stripped (w : world) (t : trace) (token : str) :
  read_auth_token w = (t, Ret (Some token)) ->
  (forall c rest, token = c :: rest -> isspace c = false)
  /\ (forall front c, token = front ++ [c] -> isspace c = false)
  /\ (token = [] <->
      exists content, token_read w = ReadText content
                      /\ forallb isspace content = true).
Proof.
  intros H; apply read_auth_token_content in H.
  destruct H as (content & Hc & ->).
  split; [intros c rest; apply strip_head|].
  split; [intros front c; apply strip_last|].
  rewrite strip_empty; split; [eauto|].
  intros (c' & Hc' & Hs); congruence.
Qed.

(** ** The transport, call by call *)

Lemma verify_cases (w : world) :
  (socket_trusted w /\ verify_socket_security w = ([], Ret (true, None)))
  \/ (~ socket_trusted w
      /\ exists reason,
           verify_socket_security w = ([], Ret (false, Some reason))).
Proof.
  destruct (verify_socket_security_total w) as (ok & reason & Hv).
  destruct ok.
  - left.
    assert (Ht : socket_trusted w).
    { revert Hv; unfold verify_socket_security, socket_trusted.
      destruct (socket_exists w); simpl; [|discriminate].
      destruct (socket_stat w) as [s|msg]; simpl; [|discriminate].
      destruct (Z.eqb_spec (st_uid s) (getuid w)); simpl; [|discriminate].
      destruct (S_ISSOCK (st_mode s)) eqn:E; simpl; [|discriminate].
      intros _; split; [reflexivity|]; eauto. }
    split; [exact Ht|now apply verify_ok_iff].
  - right.
    assert (Hn : ~ socket_trusted w).
    { intros Ht; apply verify_ok_iff in Ht; congruence. }
    split; [exact Hn|now apply verify_not_ok].
Qed.

(** As [send_cases], keeping what each call returned as a hypothesis. *)
Ltac send_paths w state :=
  unfold send_event, decode, loads;
  let Hv := fresh "Hv" in
  destruct (verify_cases w) as [[? Hv]|[? [? Hv]]]; rewrite Hv; simpl;
  try match goal with
      | |- context [read_auth_token w] =>
        let Hread := fresh "Hread" in
        destruct (read_auth_token_cases w) as [[[[|? ?]|] Hread] | Hread];
        rewrite Hread; simpl
      end;
  try match goal with
      | |- context [socket_new w] =>
        destruct (socket_new w) as [[]|?] eqn:?; simpl
      end;
  try match goal with
      | |- context [connect w] => destruct (connect w) as [[]|?] eqn:?; simpl
      end;
  try match goal with
      | |- context [sendall w] => destruct (sendall w) as [[]|?] eqn:?; simpl
      end;
  rewrite ?get_status_after_token;
  fold (is_request state);
  try match goal with
      | |- context [is_request state] =>
        destruct (is_request state) eqn:?; simpl
      end;
  try match goal with
      | |- context [recv w] => destruct (recv w) as [[|? ?]|?] eqn:?; simpl
      end;
  try match goal with
      | |- context [close w] => destruct (close w) as [[]|?] eqn:?; simpl
      end;
  try match goal with
      | |- context [utf8_decode ?b] => destruct (utf8_decode b) eqn:?; simpl
      end;
  try match goal with
      | |- context [json_loads ?s] => destruct (json_loads s) eqn:?; simpl
      end;
  try match goal with
      | |- context [send_handles ?e] => destruct (send_handles e) eqn:?; simpl
      end.

Ltac no_such_event H :=
  simpl in H;
  repeat match type of H with
         | _ \/ _ => destruct H as [H|H]; [try discriminate H|]
         | False => contradiction
         end.

Lemma send_event_payload (w : world) (state : dict) (p : pyval) :
  In (EvSendall p) (fst (send_event json_loads w state)) ->
  socket_trusted w /\ connect w = Done tt
  /\ exists content,
       token_read w = ReadText content /\ strip content <> []
       /\ p = PyDict (dict_set state (py "_auth_token")
                               (PyStr (strip content))).
Proof.
  send_paths w state; intros Hin; no_such_event Hin.
  all: injection Hin as <-.
  all: match goal with
       | Hread : read_auth_token _ = _ |- _ =>
         apply read_auth_token_content in Hread;
         destruct Hread as (content & Hc & Hs)
       end.
  all: split; [assumption|split; [reflexivity|]].
  all: exists content; rewrite <- Hs.
  all: repeat split; auto; discriminate.
Qed.

(** Nothing is sent unauthenticated.  A message goes out only after the
    socket passed its checks and [connect] returned, and only with a token:
    the message is the record with [_auth_token] set to the stripped,
    non-empty content of the token file, every other key as it was. *)
Theorem send_event_sends_authenticated (w : world) (state : dict)
    (p : pyval) :
  In (EvSendall p) (fst (send_event json_loads w state)) ->
  socket_trusted w /\ connect w = Done tt
  /\ exists content d,
       token_read w = ReadText content /\ strip content <> []
       /\ p = PyDict d
       /\ dict_get d (py "_auth_token") = Some (PyStr (strip content))
       /\ (forall k, k <> py "_auth_token" ->
             dict_get d k = dict_get state k).
Proof.
  intros Hin.
  destruct (send_event_payload w state p Hin)
    as (Ht & Hc & content & Hr & Hne & ->).
  split; [exact Ht|split; [exact Hc|]].
  exists content; eexists; repeat split; eauto using dict_get_set_same.
  intros k Hk; apply dict_get_set_other; congruence.
Qed.

(** The socket calls come in one order, each made only when the one before
    returned: the trace is always an initial part of
    socket, settimeout(300), connect, sendall, then recv(4096) and close for
    a request, close alone for any other record.  The socket is created only
    once the socket check passed and a non-empty token was read; settimeout
    and connect are called only when the socket was created, sendall only
    when connect returned, recv only for a request and when sendall
    returned, close only when sendall returned and, for a request, recv
    returned. *)
Theorem send_event_call_order (w : world) (state : dict) :
  let t := fst (send_event json_loads w state) in
  (exists p rest,
      t ++ rest
      = [EvSocket; EvSetTimeout TIMEOUT_SECONDS; EvConnect; EvSendall p]
        ++ (if is_request state then [EvRecv 4096; EvClose] else [EvClose]))
  /\ (In EvSocket t ->
      socket_trusted w
      /\ exists c token, read_auth_token w = ([], Ret (Some (c :: token))))
  /\ (forall n, In (EvSetTimeout n) t -> socket_new w = Done tt /\ n = 300)
  /\ (In EvConnect t -> socket_new w = Done tt)
  /\ (forall p, In (EvSendall p) t -> connect w = Done tt)
  /\ (forall n, In (EvRecv n) t ->
      sendall w = Done tt /\ is_request state = true /\ n = 4096)
  /\ (In EvClose t ->
      sendall w = Done tt
      /\ (is_request state = true -> exists b, recv w = Done b)).
Proof.
  cbv zeta.
  send_paths w state;
    (split; [first [ now (exists PyNone; eexists) | now (eexists _, _) ]|]);
    repeat match goal with |- _ /\ _ => split end;
    intros;
    repeat match goal with
           | H : False |- _ => contradiction
           | H : _ \/ _ |- _ => destruct H as [H|H]; [try discriminate H|]
           end;
    repeat match goal with
           | H : EvSetTimeout _ = EvSetTimeout _ |- _ => injection H as H
           | H : EvRecv _ = EvRecv _ |- _ => injection H as H
           end;
    try discriminate; subst; eauto 7;
    try (split; [reflexivity|intros Hq; discriminate Hq]).
Qed.

(** A value other than [None] comes back only for a request whose exchange
    completed, [close] included, and it is what [json.loads] makes of the
    decoded reply. *)
Theorem send_event_returns_reply (w : world) (state : dict) (v : pyval) :
  snd (send_event json_loads w state) = Ret v -> v <> PyNone ->
  is_request state = true /\ close w = Done tt
  /\ exists b text, recv w = Done b /\ utf8_decode b = Some text
                    /\ json_loads text = Returns v.
Proof.
  send_paths w state; intros Hret Hne; try discriminate Hret;
    injection Hret as <-; try contradiction; eauto 8.
Qed.

(** ** What the socket check does not look at *)

Lemma socket_type_bits (perm : Z) :
  0 <= perm < 4096 -> S_ISSOCK (Z.lor S_IFSOCK perm) = true.
Proof.
  intros Hp.
  assert (Hall : forallb (fun n => S_ISSOCK (Z.lor S_IFSOCK (Z.of_nat n)))
                         (seq 0 4096) = true) by (vm_compute; reflexivity).
  rewrite forallb_forall in Hall.
  rewrite <- (Z2Nat.id perm) by lia.
  apply Hall, in_seq; lia.
Qed.

(** The socket check reads the type bits of the mode only.  A socket owned
    by the user passes whatever its permission, setuid, setgid and sticky
    bits are: unlike the token file, a socket that group and others may
    write to is accepted. *)
Theorem verify_socket_security_ignores_permissions (w : world)
    (s : stat_result) (perm : Z) :
  socket_exists w = true ->
  socket_stat w = Done s ->
  st_uid s = getuid w ->
  st_mode s = Z.lor S_IFSOCK perm ->
  0 <= perm < 4096 ->
  verify_socket_security w = ([], Ret (true, None)).
Proof.
  intros He Hs Hu Hm Hp; apply verify_ok_iff.
  split; [exact He|]; exists s; repeat split; auto.
  rewrite Hm; now apply socket_type_bits.
Qed.

(** ** The record, field by field *)

Lemma dict_set_keys (d : dict) (k : str) (v : pyval) :
  map fst (dict_set d k v)
  = if existsb (fun k' => str_eqb k' k) (map fst d)
    then map fst d else map fst d ++ [k].
Proof.
  induction d as [|[k' v'] d IH]; simpl; [reflexivity|].
  destruct (str_eqb k' k); simpl; [reflexivity|].
  rewrite IH; now destruct (existsb _ (map fst d)).
Qed.

Lemma dict_set_nodup (d : dict) (k : str) (v : pyval) :
  NoDup (map fst d) -> NoDup (map fst (dict_set d k v)).
Proof.
  intros Hd; rewrite dict_set_keys.
  destruct (existsb _ (map fst d)) eqn:E; [exact Hd|].
  apply NoDup_app; [exact Hd|repeat constructor; intros []|].
  intros x Hx [Hk|[]]; subst x.
  assert (Hex : existsb (fun k' => str_eqb k' k) (map fst d) = true)
    by (apply existsb_exists; exists k; split; [exact Hx|apply str_eqb_refl]).
  congruence.
Qed.

Lemma dict_get_key (d : dict) (k : str) :
  dict_get d k <> None <-> In k (map fst d).
Proof.
  induction d as [|[k' v'] d IH]; simpl; [split; [congruence|intros []]|].
  destruct (str_eqb k' k) eqn:E.
  - apply str_eqb_eq in E; subst; split; [auto|discriminate].
  - apply str_eqb_neq in E; rewrite IH; split; [auto|intros [?|?]; congruence].
Qed.

Ltac classify_branches :=
  unfold classify; cbv zeta;
  repeat match goal with
         | |- context [if eq_str ?e ?l then _ else _] =>
           destruct (eq_str e l) eqn:?
         end;
  unfold set_tool_use_id;
  repeat match goal with
         | |- context [if truthy ?v then _ else _] => destruct (truthy v) eqn:?
         end;
  unfold set_tool, set_status.

Ltac record_of H :=
  destruct H as [H|H]; try discriminate H; injection H as <-.

Lemma classify_frame (data st s : dict) :
  classify data st = Request s \/ classify data st = FireAndForget s ->
  (forall k, ~ In k branch_keys -> dict_get s k = dict_get st k)
  /\ (NoDup (map fst st) -> NoDup (map fst s)).
Proof.
  classify_branches; intros H; record_of H.
  all: split; [|intros Hd; repeat apply dict_set_nodup; exact Hd].
  all: intros k Hk.
  all: repeat rewrite dict_get_set_other
         by (intros <-; apply Hk; simpl; auto 10).
  all: reflexivity.
Qed.

Lemma classify_status (data st s : dict) :
  classify data st = Request s \/ classify data st = FireAndForget s ->
  exists status,
    dict_get s (py "status") = Some (PyStr (py status)) /\ In status statuses.
Proof.
  classify_branches; intros H; record_of H.
  all: eexists; split;
    [ repeat rewrite dict_get_set_other by other_key;
      rewrite dict_get_set_same; reflexivity
    | simpl; auto 10 ].
Qed.

Lemma classify_base (w : world) (data s : dict) :
  classify data (build_state w data) = Request s
  \/ classify data (build_state w data) = FireAndForget s ->
  (forall k, In k base_keys ->
     dict_get s k = dict_get (build_state w data) k)
  /\ NoDup (map fst s).
Proof.
  intros H; destruct (classify_frame data _ s H) as (Hframe & Hnodup).
  split.
  - intros k Hk; apply Hframe; intros Hb; simpl in Hk, Hb.
    repeat (destruct Hk as [<-|Hk];
            [repeat (destruct Hb as [Hb|Hb];
                     [vm_compute in Hb; discriminate Hb|]); exact Hb|]).
    exact Hk.
  - apply Hnodup; unfold build_state; simpl.
    repeat constructor; simpl; intros Hin;
      repeat (destruct Hin as [Hin|Hin];
              [vm_compute in Hin; discriminate Hin|]); exact Hin.
Qed.

(** Classification leaves the base fields alone.  A record that the
    classifier yields carries the session id of the notification (the text
    [unknown] when it has none), its cwd and event name (empty text when
    missing), the parent pid and the tty, and any key other than status,
    tool, tool_input, tool_use_id, notification_type and message is as
    [build_state] made it; no key occurs twice. *)
Theorem classify_keeps_base_fields (w : world) (data s : dict) :
  classify data (build_state w data) = Request s
  \/ classify data (build_state w data) = FireAndForget s ->
  dict_get s (py "session_id")
  = Some (get data (py "session_id") (PyStr (py "unknown")))
  /\ dict_get s (py "cwd") = Some (get data (py "cwd") (PyStr []))
  /\ dict_get s (py "event")
     = Some (get data (py "hook_event_name") (PyStr []))
  /\ dict_get s (py "pid") = Some (PyInt (getppid w))
  /\ dict_get s (py "tty")
     = Some (match tty w with Some t => PyStr t | None => PyNone end)
  /\ (forall k, ~ In k branch_keys ->
        dict_get s k = dict_get (build_state w data) k)
  /\ NoDup (map fst s).
Proof.
  intros H; destruct (classify_frame data _ s H) as (Hframe & _).
  destruct (classify_base w data s H) as (Hbase & Hnodup).
  repeat split.
  1-5: rewrite Hbase by (simpl; auto 10); reflexivity.
  - exact Hframe.
  - exact Hnodup.
Qed.

(** ** Whole runs *)

Lemma in_bind {A B} (m : M A) (k : A -> M B) (e : event) :
  In e (fst (bind m k)) ->
  In e (fst m) \/ exists a, snd m = Ret a /\ In e (fst (k a)).
Proof.
  destruct m as [t [a| |]]; simpl; auto.
  rewrite in_app_iff; intros [H|H]; eauto.
Qed.

Lemma render_prints_only (v : pyval) (e : event) :
  In e (fst (render v)) -> exists d, e = EvPrint d.
Proof.
  unfold render, py_get.
  destruct (truthy v); simpl; [|intros []].
  destruct v; simpl; try (intros []).
  destruct (eq_str _ (py "allow")); simpl; [intros [<-|[]]; eauto|].
  destruct (eq_str _ (py "deny")); simpl; [intros [<-|[]]; eauto|intros []].
Qed.



Lemma classify_request_only (data st s : dict) :
  classify data st = Request s ->
  eq_str (get data (py "hook_event_name") (PyStr [])) (py "PermissionRequest")
  = true.
Proof. classify_branches; intros H; try discriminate H; reflexivity. Qed.

Lemma classify_fire_and_forget (data st s : dict) :
  classify data st = FireAndForget s -> is_request s = false.
Proof.
  classify_branches; intros H; try discriminate H; injection H as <-.
  all: unfold is_request, get.
  all: repeat rewrite dict_get_set_other by other_key.
  all: rewrite dict_get_set_same; reflexivity.
Qed.

(** Every message that [main] puts on the wire is an object in which no key
    occurs twice and which holds the session id (the text [unknown] when the
    notification has none), cwd, event, pid and tty, one of the eight
    statuses, and a non-empty token. *)
Theorem main_message_fields (w : world) (stdin : str) (data : dict)
    (p : pyval) :
  json_loads stdin = Returns (PyDict data) ->
  In (EvSendall p) (fst (main json_loads w stdin)) ->
  exists d status token,
    p = PyDict d /\ NoDup (map fst d)
    /\ dict_get d (py "session_id")
       = Some (get data (py "session_id") (PyStr (py "unknown")))
    /\ dict_get d (py "cwd") = Some (get data (py "cwd") (PyStr []))
    /\ dict_get d (py "event")
       = Some (get data (py "hook_event_name") (PyStr []))
    /\ dict_get d (py "pid") = Some (PyInt (getppid w))
    /\ dict_get d (py "tty")
       = Some (match tty w with Some t => PyStr t | None => PyNone end)
    /\ dict_get d (py "status") = Some (PyStr (py status))
    /\ In status statuses
    /\ dict_get d (py "_auth_token") = Some (PyStr token) /\ token <> [].
Proof.
  intros Hin Hp; rewrite (main_on_object w stdin data Hin) in Hp.
  assert (Hs : exists s,
            (classify data (build_state w data) = Request s
             \/ classify data (build_state w data) = FireAndForget s)
            /\ In (EvSendall p) (fst (send_event json_loads w s))).
  { destruct (classify data (build_state w data)) as [s| |s];
      [|destruct Hp|]; exists s; (split; [auto|]).
    - apply in_bind in Hp as [Hp|(v & _ & Hp)]; [exact Hp|].
      apply render_prints_only in Hp as [d Hd]; discriminate Hd.
    - apply in_bind in Hp as [Hp|(v & _ & Hp)]; [exact Hp|destruct Hp]. }
  destruct Hs as (s & Hc & Hsent).
  apply send_event_payload in Hsent as (_ & _ & content & _ & Hne & ->).
  destruct (classify_base w data s Hc) as (Hbase & Hnodup).
  destruct (classify_status data _ s Hc) as (status & Hstatus & Hin').
  eexists _, status, (strip content).
  split; [reflexivity|].
  split; [now apply dict_set_nodup|].
  repeat split; auto using dict_get_set_same.
  1-5: rewrite dict_get_set_other by other_key;
       rewrite Hbase by (simpl; auto 10); reflexivity.
  rewrite dict_get_set_other by other_key; exact Hstatus.
Qed.

(** What [main] prints.  In every world and on every input it prints
    nothing, or the allow directive, or one deny directive whose message
    tests true; and on a notification object whose event is not
    PermissionRequest it prints nothing. *)
Theorem main_output (w : world) (stdin : str) :
  (stdout (main json_loads w stdin) = []
   \/ stdout (main json_loads w stdin) = [allow_output]
   \/ exists message,
        truthy message = true
        /\ stdout (main json_loads w stdin) = [deny_output message])
  /\ (forall data,
        json_loads stdin = Returns (PyDict data) ->
        eq_str (get data (py "hook_event_name") (PyStr []))
               (py "PermissionRequest") = false ->
        stdout (main json_loads w stdin) = []).
Proof.
  assert (Hrender : forall v,
            stdout (render v) = []
            \/ stdout (render v) = [allow_output]
            \/ exists message,
                 truthy message = true
                 /\ stdout (render v) = [deny_output message]).
  { intros v; unfold render, py_get.
    destruct (truthy v); simpl; [|now left].
    destruct v; simpl; try (now left).
    destruct (eq_str _ (py "allow")); simpl; [now (right; left)|].
    destruct (eq_str _ (py "deny")); simpl; [|now left].
    right; right; eexists; split; [|reflexivity].
    unfold py_or; destruct (truthy (get d (py "reason") (PyStr []))) eqn:E;
      [exact E|reflexivity]. }
  destruct (json_loads stdin) as [v|e] eqn:Hin.
  2:{ unfold main, loads; rewrite Hin.
      destruct e; (split; [now left|discriminate]). }
  destruct v as [| | | | | |data];
    try (unfold main, loads; rewrite Hin; split; [now left|discriminate]).
  rewrite (main_on_object w stdin data Hin).
  destruct (classify data (build_state w data)) as [s| |s] eqn:Hc.
  - rewrite send_event_stdout; split.
    + destruct (snd (send_event json_loads w s)); auto.
    + intros data' Hd He; injection Hd as <-.
      apply classify_request_only in Hc; congruence.
  - split; [now left|reflexivity].
  - rewrite (send_event_stdout w s (fun _ => ret tt)).
    assert (Hnone : match snd (send_event json_loads w s) with
                    | Ret _ => stdout (ret tt)
                    | _ => []
                    end = [])
      by (destruct (snd (send_event json_loads w s)); reflexivity).
    rewrite Hnone; split; [now left|reflexivity].
Qed.


(** Standard input that is JSON but not an object (null, a number, a
    string, an array) kills [main] at its first [data.get]: the process
    dies of [AttributeError] with exit code 1, having sent and printed
    nothing. *)
Theorem main_rejects_non_object (w : world) (stdin : str) (v : pyval) :
  json_loads stdin = Returns v ->
  (forall data, v <> PyDict data) ->
  main json_loads w stdin = ([], Raise AttributeError)
  /\ exit_code (main json_loads w stdin) = 1.
Proof.
  intros Hin Hv; unfold main, loads; rewrite Hin; simpl.
  destruct v; try (split; reflexivity).
  now contradiction (Hv d).
Qed.

Lemma send_event_same_but_reply (w w' : world) (state : dict) :
  same_but_reply w w' -> is_request state = false ->
  send_event json_loads w state = send_event json_loads w' state.
Proof.
  intros (Hu & _ & _ & He & Hs & Hte & Hts & Htr & Hn & Hc & Hsd & Hcl) Hreq.
  assert (Hv : verify_socket_security w = verify_socket_security w')
    by (unfold verify_socket_security, owned_by_other;
        now rewrite Hu, He, Hs).
  assert (Hr : read_auth_token w = read_auth_token w')
    by (unfold read_auth_token, open_read; now rewrite Hu, Hte, Hts, Htr).
  unfold send_event; rewrite Hv, Hr, Hn, Hc, Hsd, Hcl.
  destruct (verify_socket_security_total w') as (ok & reason & ->).
  destruct ok; simpl; [|reflexivity].
  destruct (read_auth_token_cases w') as [[[[|c t]|] ->] | ->]; simpl;
    try reflexivity.
  destruct (socket_new w') as [[]|?]; simpl; [|reflexivity].
  destruct (connect w') as [[]|?]; simpl; [|reflexivity].
  destruct (sendall w') as [[]|?]; simpl; [|reflexivity].
  rewrite get_status_after_token; fold (is_request state); rewrite Hreq.
  reflexivity.
Qed.

(** The reply is read for a permission request only.  On a notification
    object of any other event, two worlds that differ at most in what
    [sock.recv] would do give the same run of [main]: same socket calls,
    same message, same outcome. *)
Theorem main_ignores_reply (w w' : world) (stdin : str) (data : dict) :
  same_but_reply w w' ->
  json_loads stdin = Returns (PyDict data) ->
  eq_str (get data (py "hook_event_name") (PyStr [])) (py "PermissionRequest")
  = false ->
  main json_loads w stdin = main json_loads w' stdin.
Proof.
  intros Hsame Hin Hev.
  rewrite (main_on_object w stdin data Hin), (main_on_object w' stdin data Hin).
  assert (Hb : build_state w data = build_state w' data).
  { destruct Hsame as (_ & Hp & Ht & _); unfold build_state.
    now rewrite Hp, Ht. }
  rewrite <- Hb.
  destruct (classify data (build_state w data)) as [s| |s] eqn:Hc.
  - apply classify_request_only in Hc; congruence.
  - reflexivity.
  - apply classify_fire_and_forget in Hc.
    now rewrite (send_event_same_but_reply w w' s Hsame Hc).
Qed.


(** The tool keys.  A record has [tool] and [tool_input] exactly for the
    events PreToolUse, PostToolUse and PermissionRequest: the tool name of
    the notification ([None] when it has none) and its tool input (an empty
    object when it has none).  It has [tool_use_id] exactly for PreToolUse
    and PostToolUse notifications whose [tool_use_id] tests true, never for
    a permission request. *)
Theorem classify_tool_fields (w : world) (data s : dict) :
  classify data (build_state w data) = Request s
  \/ classify data (build_state w data) = FireAndForget s ->
  let event := get data (py "hook_event_name") (PyStr []) in
  let before_or_after :=
    eq_str event (py "PreToolUse") || eq_str event (py "PostToolUse") in
  let about_tool := before_or_after || eq_str event (py "PermissionRequest") in
  let id := get data (py "tool_use_id") PyNone in
  dict_get s (py "tool")
  = (if about_tool then Some (get data (py "tool_name") PyNone) else None)
  /\ dict_get s (py "tool_input")
     = (if about_tool then Some (get data (py "tool_input") (PyDict []))
        else None)
  /\ dict_get s (py "tool_use_id")
     = (if before_or_after && truthy id then Some id else None).
Proof.
  cbv zeta; remember (build_state w data) as st eqn:Hst.
  classify_branches; intros H; record_of H; settle_tests.
  all: repeat split.
  all: repeat rewrite dict_get_set_other by other_key.
  all: rewrite ?dict_get_set_same; try reflexivity.
  all: subst st; reflexivity.
Qed.

Ltac literal_tests :=
  repeat match goal with
         | Ht : eq_str ?e _ = true |- _ =>
           apply eq_str_true in Ht; rewrite ?Ht in *; clear Ht
         end;
  simpl; eval_literals; simpl.

Ltac no_known_event H :=
  match type of H with
  | forall e, _ -> str_eqb (py ?l) _ = false =>
    specialize (H l); rewrite str_eqb_refl in H;
    assert (true = false) by (apply H; simpl; auto 12); discriminate
  end.

Ltac decide_status :=
  let H := fresh "H" in
  split; intros H;
  first [ reflexivity
        | solve [auto 8]
        | solve [vm_compute in H; discriminate H]
        | solve [exfalso; intuition discriminate]
        | solve [no_known_event H]
        | let e := fresh "e" in
          let He := fresh "He" in
          intros e He; simpl in He;
          repeat (destruct He as [<-|He]; [assumption|]); contradiction ].

(** The statuses, read backwards.  From the status of a record the
    application learns the event, up to these groups: [processing] means
    UserPromptSubmit or PostToolUse; [running_tool], PreToolUse;
    [waiting_for_approval], PermissionRequest; [waiting_for_input], Stop,
    SubagentStop, SessionStart or an idle_prompt Notification;
    [notification], any other Notification; [ended], SessionEnd;
    [compacting], PreCompact; [unknown], none of the ten event names. *)
Theorem status_meaning (w : world) (data s : dict) (status : str) :
  classify data (build_state w data) = Request s
  \/ classify data (build_state w data) = FireAndForget s ->
  dict_get s (py "status") = Some (PyStr status) ->
  let subtype := get data (py "notification_type") PyNone in
  (status = py "processing" <->
   event_is data "UserPromptSubmit" = true
   \/ event_is data "PostToolUse" = true)
  /\ (status = py "running_tool" <-> event_is data "PreToolUse" = true)
  /\ (status = py "waiting_for_approval" <->
      event_is data "PermissionRequest" = true)
  /\ (status = py "waiting_for_input" <->
      event_is data "Stop" = true \/ event_is data "SubagentStop" = true
      \/ event_is data "SessionStart" = true
      \/ (event_is data "Notification" = true
          /\ eq_str subtype (py "idle_prompt") = true))
  /\ (status = py "notification" <->
      event_is data "Notification" = true
      /\ eq_str subtype (py "idle_prompt") = false)
  /\ (status = py "ended" <-> event_is data "SessionEnd" = true)
  /\ (status = py "compacting" <-> event_is data "PreCompact" = true)
  /\ (status = py "unknown" <->
      forall e, In e known_events -> event_is data e = false).
Proof.
  cbv zeta; unfold event_is.
  remember (build_state w data) as st eqn:Hst; clear Hst.
  classify_branches; intros H Hs; record_of H.
  all: repeat rewrite dict_get_set_other in Hs by other_key.
  all: rewrite dict_get_set_same in Hs; injection Hs as <-.
  all: literal_tests.
  all: repeat match goal with |- _ /\ _ => split end.
  all: decide_status.
Qed.

(** ** The terminal lookup *)

Lemma startswith_app (p s : str) : startswith (p ++ s) p = true.
Proof.
  induction p as [|c p IH]; simpl; [now destruct s|].
  now rewrite N.eqb_refl.
Qed.

(** When [ps] names a terminal, [get_tty] returns it without consulting the
    standard streams: the stripped output if it starts with [/dev/], with
    [/dev/] put in front otherwise, so the result always starts with
    [/dev/]; and that is the tty of every record built in such a world. *)
Theorem get_tty_prefers_ps (env : tty_env) (out : str) :
  ps_stdout env = Returns out ->
  strip out <> [] -> strip out <> py "??" -> strip out <> py "-" ->
  exists name,
    get_tty env = ([], Ret (Some name))
    /\ startswith name (py "/dev/") = true
    /\ (name = strip out \/ name = py "/dev/" ++ strip out)
    /\ (startswith (strip out) (py "/dev/") = true -> name = strip out)
    /\ (forall w data, tty_from env w ->
          get (build_state w data) (py "tty") PyNone = PyStr name).
Proof.
  intros Hps He Hq Hd.
  assert (Hof : tty_of_ps out
                = Some (if negb (startswith (strip out) (py "/dev/"))
                        then py "/dev/" ++ strip out else strip out)).
  { unfold tty_of_ps; cbv zeta.
    apply str_eqb_neq in Hq, Hd; rewrite Hq, Hd.
    destruct (strip out); [congruence|reflexivity]. }
  eexists; split.
  { unfold get_tty; rewrite Hps; simpl; rewrite Hof; reflexivity. }
  destruct (startswith (strip out) (py "/dev/")) eqn:Es; simpl.
  - repeat split; auto.
    intros w data Hw; unfold tty_from, get_tty in Hw.
    rewrite Hps in Hw; simpl in Hw; rewrite Hof in Hw; simpl in Hw.
    injection Hw as Hw; unfold build_state; rewrite <- Hw; reflexivity.
  - repeat split; auto; try discriminate.
    + apply (startswith_app (py "/dev/")).
    + intros w data Hw; unfold tty_from, get_tty in Hw.
      rewrite Hps in Hw; simpl in Hw; rewrite Hof in Hw; simpl in Hw.
      injection Hw as Hw; unfold build_state; rewrite <- Hw; reflexivity.
Qed.

(** When [ps] names no terminal, [get_tty] tries standard input, then
    standard output, and returns the first name [os.ttyname] gives, as it
    is; an [OSError] or [AttributeError] of a stream passes to the next, and
    when both fail so the result is [None]; any other exception of a stream
    that is reached leaves [get_tty]. *)
Theorem get_tty_falls_back (env : tty_env) :
  ps_names_nothing env ->
  (forall name, stdin_ttyname env = Returns name ->
     get_tty env = ([], Ret (Some name)))
  /\ (forall e, stdin_ttyname env = Raises e -> ttyname_handles e = true ->
      (forall name, stdout_ttyname env = Returns name ->
         get_tty env = ([], Ret (Some name)))
      /\ (forall e', stdout_ttyname env = Raises e' ->
            get_tty env
            = ([], if ttyname_handles e' then Ret None else Raise e')))
  /\ (forall e, stdin_ttyname env = Raises e -> ttyname_handles e = false ->
      get_tty env = ([], Raise e)).
Proof.
  intros Hps.
  assert (Hfirst : try_except
                     (stdout <- lift_call (ps_stdout env) ;;
                      ret (tty_of_ps stdout))
                     (fun _ => true) (fun _ => ret None)
                   = ([], Ret None)).
  { unfold ps_names_nothing in Hps.
    destruct (ps_stdout env) as [out|e]; simpl; [|reflexivity].
    unfold tty_of_ps; cbv zeta.
    destruct Hps as [-> | [-> | ->]]; reflexivity. }
  unfold get_tty; rewrite Hfirst; simpl.
  split; [|split].
  - intros name ->; reflexivity.
  - intros e -> He; simpl; rewrite He; simpl; split.
    + intros name ->; reflexivity.
    + intros e' ->; simpl; destruct (ttyname_handles e'); reflexivity.
  - intros e -> He; simpl; rewrite He; reflexivity.
Qed.

(** ** An ASCII reply *)

Lemma utf8_decode_ascii (b : bytes) :
  forallb (fun x => (Byte.to_N x <? 128)%N) b = true ->
  utf8_decode b = Some (map Byte.to_N b).
Proof.
  unfold utf8_decode; induction b as [|x b IH]; [reflexivity|].
  intros H; simpl in H; apply andb_true_iff in H as [Hx Hb].
  cbn [map utf8_decode_N]; change (128%N) with (0x80%N) in Hx.
  rewrite Hx, (IH Hb); reflexivity.
Qed.

(** A reply made of ASCII bytes reaches [json.loads] character for
    character.  When a request has been sent, and [recv] returns such bytes
    and [close] returns, [send_event] returns what [json.loads] returns on
    them, returns [None] when it raises [JSONDecodeError] (or an [OSError]),
    and raises whatever else it raises. *)
Theorem send_event_ascii_reply (w : world) (state : dict) (token : str)
    (b : bytes) :
  socket_trusted w ->
  read_auth_token w = ([], Ret (Some token)) -> token <> [] ->
  socket_new w = Done tt -> connect w = Done tt -> sendall w = Done tt ->
  is_request state = true ->
  recv w = Done b -> b <> [] ->
  forallb (fun x => (Byte.to_N x <? 128)%N) b = true ->
  close w = Done tt ->
  snd (send_event json_loads w state)
  = match json_loads (map Byte.to_N b) with
    | Returns v => Ret v
    | Raises (OSError _) | Raises JSONDecodeError => Ret PyNone
    | Raises e => Raise e
    end.
Proof.
  intros Ht Hread Hne Hn Hc Hs Hreq Hrecv Hb Hascii Hclose.
  apply verify_ok_iff in Ht.
  unfold send_event, decode, loads; rewrite Ht; simpl; rewrite Hread; simpl.
  destruct token as [|c token]; [congruence|]; simpl.
  rewrite Hn; simpl; rewrite Hc; simpl; rewrite Hs; simpl.
  rewrite get_status_after_token; fold (is_request state); rewrite Hreq.
  simpl; rewrite Hrecv; simpl; rewrite Hclose; simpl.
  destruct b as [|x b]; [congruence|].
  rewrite (utf8_decode_ascii _ Hascii); simpl.
  destruct (json_loads _) as [v|e]; [reflexivity|].
  destruct e; reflexivity.
Qed.

(** ** The mode test of the token file, bit by bit *)

Lemma owner_only_bits (mode : Z) :
  Z.land mode 63 = 0 <-> forall i, 0 <= i < 6 -> Z.testbit mode i = false.
Proof.
  change 63 with (Z.ones 6); rewrite Z.land_ones by lia.
  split.
  - intros H i Hi.
    rewrite <- (Z.mod_pow2_bits_low mode 6 i) by lia.
    rewrite H; apply Z.bits_0.
  - intros H; apply Z.bits_inj'; intros i Hi; rewrite Z.bits_0.
    destruct (Z.lt_ge_cases i 6).
    + rewrite Z.mod_pow2_bits_low by lia; apply H; lia.
    + apply Z.mod_pow2_bits_high; lia.
Qed.

(** A token file that is there, owned by the user and readable as text is
    accepted exactly when none of the six low bits of its mode is set: read,
    write or execute for group (bits 5 to 3) or for others (bits 2 to 0).
    The owner's own bits and the type of the file are not examined. *)
Theorem read_auth_token_owner_only (w : world) (s : stat_result)
    (content : str) :
  token_exists w = true ->
  token_stat w = Done s ->
  st_uid s = getuid w ->
  token_read w = ReadText content ->
  (read_auth_token w = ([], Ret (Some (strip content)))
   <-> forall i, 0 <= i < 6 -> Z.testbit (st_mode s) i = false)
  /\ (read_auth_token w = ([], Ret None)
      <-> exists i, 0 <= i < 6 /\ Z.testbit (st_mode s) i = true).
Proof.
  intros He Hs Hu Hr.
  rewrite <- owner_only_bits.
  assert (Hrun : read_auth_token w
                 = ([], Ret (if Z.land (st_mode s) 63 =? 0
                             then Some (strip content) else None))).
  { unfold read_auth_token, open_read; rewrite He, Hs; simpl.
    rewrite Hu, Z.eqb_refl; simpl.
    destruct (Z.land (st_mode s) 63 =? 0); simpl; [now rewrite Hr|reflexivity]. }
  rewrite Hrun.
  destruct (Z.eqb_spec (Z.land (st_mode s) 63) 0) as [Hm|Hm].
  - split; [split; [intros _; exact Hm|reflexivity]|].
    split; [discriminate|].
    intros (i & Hi & Hb).
    rewrite owner_only_bits in Hm; rewrite (Hm i Hi) in Hb; discriminate.
  - split; [split; [discriminate|contradiction]|].
    split; [intros _|reflexivity].
    assert (Hex : existsb (fun i => Z.testbit (st_mode s) (Z.of_nat i))
                          (seq 0 6) = true).
    { apply not_false_is_true; intros Hf; apply Hm, owner_only_bits.
      intros i Hi.
      rewrite <- (Z2Nat.id i) by lia.
      apply not_true_is_false; intros Hb.
      assert (Ht : existsb (fun i => Z.testbit (st_mode s) (Z.of_nat i))
                           (seq 0 6) = true)
        by (apply existsb_exists; exists (Z.to_nat i); split;
            [apply in_seq; lia|exact Hb]).
      congruence. }
    apply existsb_exists in Hex as (i & Hi & Hb); apply in_seq in Hi.
    exists (Z.of_nat i); split; [lia|exact Hb].
Qed.
(** A SessionStart notification while the application cannot be reached
    ends with exit code 0 and nothing printed.  When the socket check fails
    or the token reads as absent, [main] returns without any socket call;
    when the token file holds text and the connection is refused, the only
    socket calls are socket, settimeout(300) and connect: nothing is
    sent. *)
Theorem session_start_unreachable (w : world) (stdin : str) (data : dict) :
  json_loads stdin = Returns (PyDict data) ->
  event_is data "SessionStart" = true ->
  let run := main json_loads w stdin in
  (~ socket_trusted w \/ read_auth_token w = ([], Ret None) ->
   run = ([], Ret tt))
  /\ (forall msg, text_token w = true -> connect w = OSErr msg ->
      exit_code run = 0 /\ stdout run = []
      /\ forall e, In e (fst run) ->
                   e = EvSocket \/ e = EvSetTimeout 300 \/ e = EvConnect).
Proof.
  intros Hin Hev; cbv zeta.
  rewrite (main_on_object w stdin data Hin).
  assert (Hc : exists state,
             classify data (build_state w data) = FireAndForget state).
  { unfold event_is in Hev; apply eq_str_true in Hev.
    unfold classify; rewrite Hev; simpl; eval_literals; simpl; eauto. }
  destruct Hc as (state & ->); split.
  - intros [Hn|Hr].
    + now rewrite (send_event_untrusted w state Hn).
    + rewrite (send_event_no_token w state); [reflexivity|now left].
  - intros msg Htok Hconn; apply read_auth_token_text in Htok.
    unfold exit_code, stdout.
    send_cases w state;
      try (destruct Htok as [? Htok]; congruence); try congruence;
      (split; [reflexivity|split; [reflexivity|]]);
      intros e H; simpl in H;
      repeat (destruct H as [H|H]; [subst; auto|]); contradiction.
Qed.

End Facts.

(** ** The theorems on concrete runs *)

(** The socket of [running] passes the check, with no reason given. *)
Lemma verify_socket_security_checks_witness :
  let user := {| real_uid := 501; effective_uid := 501 |} in
  let owned_by_root := at_socket_path (Done {| st_uid := 0; st_mode := 49645 |}) in
  let regular_file := at_socket_path (Done {| st_uid := 501; st_mode := 33188 |}) in
  let unreadable := at_socket_path (OSErr (py "Permission denied")) in
  runs_as user (running (Done []))
  /\ verify_socket_security (running (Done [])) = ([], Ret (true, None))
  /\ verify_socket_security not_running
     = ([], Ret (false, Some (py "Socket does not exist")))
  /\ verify_socket_security owned_by_root
     = ([], Ret (false, Some (py "Socket owned by uid 0, expected 501")))
  /\ verify_socket_security regular_file
     = ([], Ret (false, Some (py "Path is not a socket")))
  /\ verify_socket_security unreadable
     = ([], Ret (false, Some (py "Permission denied"))).
Proof.
  cbv zeta; split; [reflexivity|].
  split; [|split; [|split; [|split]]].
  - destruct (verify_socket_security_checks (running (Done []))
                {| real_uid := 501; effective_uid := 501 |} eq_refl)
      as (ok & reason & Hv & Hok & Hnone & _).
    assert (ok = true) as ->
      by (apply Hok; split; [reflexivity|]; eexists; repeat split).
    now rewrite (Hnone eq_refl) in Hv.
  - destruct (verify_socket_security_checks not_running
                {| real_uid := 501; effective_uid := 501 |} eq_refl)
      as (ok & reason & Hv & _ & _ & _ & Habsent & _).
    rewrite Hv; f_equal; f_equal; exact (Habsent eq_refl).
  - destruct (verify_socket_security_checks
                (at_socket_path (Done {| st_uid := 0; st_mode := 49645 |}))
                {| real_uid := 501; effective_uid := 501 |} eq_refl)
      as (ok & reason & Hv & _ & _ & _ & _ & _ & Howner & _).
    rewrite Hv; f_equal; f_equal.
    apply (Howner _ eq_refl eq_refl); discriminate.
  - destruct (verify_socket_security_checks
                (at_socket_path (Done {| st_uid := 501; st_mode := 33188 |}))
                {| real_uid := 501; effective_uid := 501 |} eq_refl)
      as (ok & reason & Hv & _ & _ & _ & _ & _ & _ & Hkind & _).
    rewrite Hv; f_equal; f_equal.
    apply (Hkind _ eq_refl eq_refl eq_refl); discriminate.
  - destruct (verify_socket_security_checks
                (at_socket_path (OSErr (py "Permission denied")))
                {| real_uid := 501; effective_uid := 501 |} eq_refl)
      as (ok & reason & Hv & _ & _ & _ & _ & Hstat & _).
    rewrite Hv; f_equal; f_equal.
    apply (Hstat _ eq_refl eq_refl).
Defined.

(** C6, counterexample.  A process with real user id 501 and effective user
    id 0 finds at the path a stream socket owned by uid 0, the effective
    user: the three checks as the claim words them hold, yet the answer is
    not-ok, because the owner is compared with the real user id.  And a
    datagram socket owned by the user is accepted, although it is not
    stream-oriented: its mode is that of any socket file. *)
Lemma real_uid_and_any_socket_type :
  let elevated := {| real_uid := 501; effective_uid := 0 |} in
  let user := {| real_uid := 501; effective_uid := 501 |} in
  let roots := at_socket_path (Done {| st_uid := 0; st_mode := 49645 |}) in
  let datagram := at_socket_path (Done {| st_uid := 501; st_mode := 49645 |}) in
  (runs_as elevated roots
   /\ socket_exists roots = true
   /\ socket_stat roots
      = Done {| st_uid := effective_uid elevated;
                st_mode := mode_of (SocketFile SOCK_STREAM) 493 |}
   /\ verify_socket_security roots
      = ([], Ret (false, Some (py "Socket owned by uid 0, expected 501"))))
  /\ (runs_as user datagram
      /\ socket_exists datagram = true
      /\ socket_stat datagram
         = Done {| st_uid := effective_uid user;
                   st_mode := mode_of (SocketFile SOCK_DGRAM) 493 |}
      /\ verify_socket_security datagram = ([], Ret (true, None))).
Proof.
  cbv zeta; repeat split.
Qed.

(** The application answers [{"decision":"allow"}], and to another request
    [{"decision":"deny","reason":"x"}]. *)
Lemma main_renders_decision_witness :
  let stdin := doc_event "PermissionRequest" in
  let allowed := main sample_loads (running (Done (encode_ascii doc_allow)))
                      stdin in
  let denied := main sample_loads (running (Done (encode_ascii doc_deny_x)))
                     stdin in
  let directive d :=
    PyDict [ (py "hookSpecificOutput",
              PyDict [ (py "hookEventName", PyStr (py "PermissionRequest"));
                       (py "decision", PyDict d) ]) ] in
  (stdout allowed = [directive [ (py "behavior", PyStr (py "allow")) ]]
   /\ exit_code allowed = 0)
  /\ (stdout denied = [directive [ (py "behavior", PyStr (py "deny"));
                                   (py "message", PyStr (py "x")) ]]
      /\ exit_code denied = 0).
Proof.
  cbv zeta; split.
  - destruct (main_renders_decision sample_loads
                (running (Done (encode_ascii doc_allow)))
                (doc_event "PermissionRequest")
                (event_data "PermissionRequest") _ _
                eq_refl eq_refl eq_refl) as (Hallow & _).
    destruct (Hallow _ eq_refl eq_refl) as (Hrun & Hout).
    split; [exact Hout|now rewrite Hrun].
  - destruct (main_renders_decision sample_loads
                (running (Done (encode_ascii doc_deny_x)))
                (doc_event "PermissionRequest")
                (event_data "PermissionRequest") _ _
                eq_refl eq_refl eq_refl) as (_ & Hdeny & _).
    destruct (Hdeny _ (py "x") eq_refl eq_refl eq_refl) as (Hrun & Hout);
      [discriminate|].
    split; [exact Hout|now rewrite Hrun].
Defined.

(** A request is answered after one [recv]; a SessionStart record is sent
    and the socket closed at once; a request that times out yields [None]. *)
Lemma send_event_awaits_reply_iff_request_witness :
  let w := running (Done (encode_ascii doc_allow)) in
  let late := running (OSErr (py "timed out")) in
  let token := PyStr (py "0123abcd") in
  let request := sample_request w in
  let start := set_status (build_state w (event_data "SessionStart"))
                          "waiting_for_input" in
  let sent r := [EvSocket; EvSetTimeout 300; EvConnect;
                 EvSendall (PyDict (dict_set r (py "_auth_token") token))] in
  send_event sample_loads w start = (sent start ++ [EvClose], Ret PyNone)
  /\ send_event sample_loads late request
     = (sent request ++ [EvRecv 4096], Ret PyNone)
  /\ existsb is_recv (fst (send_event sample_loads w request)) = true.
Proof.
  cbv zeta.
  assert (Htrusted : forall reply, socket_trusted (running reply))
    by (intros reply; split; [reflexivity|]; eexists; repeat split).
  split; [|split].
  - destruct (send_event_awaits_reply_iff_request sample_loads
                (running (Done (encode_ascii doc_allow)))
                (set_status (build_state (running (Done (encode_ascii doc_allow)))
                                         (event_data "SessionStart"))
                            "waiting_for_input"))
      as (_ & _ & H).
    exact (H (py "0123abcd") (Htrusted _) eq_refl ltac:(discriminate)
             eq_refl eq_refl eq_refl).
  - destruct (send_event_awaits_reply_iff_request sample_loads
                (running (OSErr (py "timed out")))
                (sample_request (running (Done (encode_ascii doc_allow)))))
      as (_ & _ & H).
    exact (proj2 (H (py "0123abcd") (Htrusted _) eq_refl ltac:(discriminate)
                    eq_refl eq_refl eq_refl) _ eq_refl).
  - reflexivity.
Defined.

(** The scenario of the spec: the very input, with the application running. *)
Lemma main_skips_permission_prompt_witness :
  main sample_loads (running (Done (encode_ascii doc_allow)))
       doc_permission_prompt
  = ([], Exit 0).
Proof.
  exact (proj1 (main_skips_permission_prompt sample_loads
                  (running (Done (encode_ascii doc_allow)))
                  doc_permission_prompt permission_prompt_data
                  eq_refl eq_refl eq_refl)).
Defined.

(** A token file that holds a space, a tab and a newline. *)
Lemma blank_token_is_absent_witness :
  let w := app_world (ReadText [32; 9; 10]%N) (Done tt) (Done []) in
  read_auth_token w = ([], Ret (Some []))
  /\ send_event sample_loads w (sample_request w) = ([], Ret PyNone).
Proof.
  cbv zeta.
  exact (blank_token_is_absent sample_loads
           (app_world (ReadText [32; 9; 10]%N) (Done tt) (Done []))
           (sample_request _) {| st_uid := 501; st_mode := token_mode |}
           [32; 9; 10]%N eq_refl eq_refl eq_refl eq_refl eq_refl eq_refl).
Defined.

(** C7 as stated fails: a Notification with subtype [permission_prompt] is a
    parseable notification for which the classifier yields no record, and
    [main] sends none although the application is running. *)
Lemma permission_prompt_yields_no_record :
  let w := running (Done (encode_ascii doc_allow)) in
  let c := classify permission_prompt_data (build_state w permission_prompt_data) in
  sample_loads doc_permission_prompt = Returns (PyDict permission_prompt_data)
  /\ c = Suppressed
  /\ ~ (exists state, (c = Request state \/ c = FireAndForget state)
                      /\ dict_get state (py "status") <> None)
  /\ fst (main sample_loads w doc_permission_prompt) = [].
Proof.
  cbv zeta; repeat split.
  intros (state & [H | H] & _); discriminate H.
Qed.

(** A SessionStart notification is classified as fire-and-forget with the
    status [waiting_for_input], and an event name that the code does not
    know gets the status [unknown]. *)
Lemma classify_total_witness :
  let w := running (Done []) in
  (exists state,
     classify (event_data "SessionStart")
              (build_state w (event_data "SessionStart"))
     = FireAndForget state
     /\ dict_get state (py "status") = Some (PyStr (py "waiting_for_input")))
  /\ (exists state,
        classify (event_data "Resume") (build_state w (event_data "Resume"))
        = FireAndForget state
        /\ dict_get state (py "status") = Some (PyStr (py "unknown"))).
Proof.
  cbv zeta; split.
  - destruct (classify_total sample_loads (running (Done []))
                (event_data "SessionStart")) as (_ & H).
    destruct H as (state & status & Hc & Hs & _); [discriminate|].
    exists state; destruct Hc as [Hc|Hc]; [discriminate Hc|].
    split; [exact Hc|].
    injection Hc as <-; reflexivity.
  - destruct (classify_total sample_loads (running (Done []))
                (event_data "Resume")) as (_ & H).
    destruct H as (state & status & Hc & Hs & _ & _ & _ & Hu & _);
      [discriminate|].
    exists state; destruct Hc as [Hc|Hc]; [discriminate Hc|].
    split; [exact Hc|].
    rewrite Hs, Hu; [reflexivity|].
    intros k Hk; simpl in Hk.
    repeat (destruct Hk as [<-|Hk]; [reflexivity|]); contradiction.
Defined.

(** C2, where the code departs from it.  Standard input is a well-formed
    PermissionRequest (or SessionStart) notification and the application is
    running.  A reply that is not UTF-8, a reply that is a JSON array, and a
    token file that is not text each end the process with exit code 1:
    [UnicodeDecodeError] passes through the [except] clauses of
    [send_event] and [read_auth_token], and [response.get] raises
    [AttributeError] on a list. *)
Theorem main_exit_code_on_malformed_reply :
  exit_code (main sample_loads (running (Done [xff]))
                  (doc_event "PermissionRequest")) = 1
  /\ exit_code (main sample_loads (running (Done (encode_ascii doc_list)))
                     (doc_event "PermissionRequest")) = 1
  /\ exit_code (main sample_loads
                     (app_world ReadUndecodable (Done tt) (Done []))
                     (doc_event "SessionStart")) = 1.
Proof. repeat split. Qed.

(** The last scenario of the specification's section 8: the application is
    not running. *)
Lemma session_start_unreachable_witness :
  main sample_loads not_running (doc_event "SessionStart") = ([], Ret tt).
Proof.
  refine (proj1 (session_start_unreachable sample_loads not_running
                   (doc_event "SessionStart") (event_data "SessionStart")
                   eq_refl eq_refl) _).
  left; intros (He & _); discriminate He.
Defined.

(** ** The further theorems on concrete runs *)

(** A token file that holds [" abc "] followed by a newline. *)
Lemma read_auth_token_stripped_witness :
  let w := app_world (ReadText ([32%N] ++ py "abc" ++ [32; 10]%N)) (Done tt)
                     (Done []) in
  read_auth_token w = ([], Ret (Some (py "abc")))
  /\ isspace 97 = false /\ isspace 99 = false.
Proof.
  cbv zeta.
  destruct (read_auth_token_stripped
              (app_world (ReadText ([32%N] ++ py "abc" ++ [32; 10]%N))
                         (Done tt) (Done []))
              [] (py "abc") eq_refl) as (Hhead & Hlast & _).
  split; [reflexivity|split].
  - exact (Hhead 97%N (py "bc") eq_refl).
  - exact (Hlast (py "ab") 99%N eq_refl).
Defined.

(** The message of a SessionStart notification, application running. *)
Lemma send_event_sends_authenticated_witness :
  let w := running (Done []) in
  let start := set_status (build_state w (event_data "SessionStart"))
                          "waiting_for_input" in
  exists d,
    In (EvSendall (PyDict d)) (fst (send_event sample_loads w start))
    /\ dict_get d (py "_auth_token") = Some (PyStr (py "0123abcd"))
    /\ dict_get d (py "status") = Some (PyStr (py "waiting_for_input")).
Proof.
  cbv zeta.
  set (w := running (Done [])).
  set (start := set_status (build_state w (event_data "SessionStart"))
                           "waiting_for_input").
  set (p := PyDict (dict_set start (py "_auth_token") (PyStr (py "0123abcd")))).
  assert (Hin : In (EvSendall p) (fst (send_event sample_loads w start)))
    by (vm_compute; auto 6).
  destruct (send_event_sends_authenticated sample_loads w start p Hin)
    as (_ & _ & content & d & Hc & _ & Hp & Htok & Hother).
  injection Hc as <-.
  exists d; split; [rewrite <- Hp; exact Hin|].
  split; [exact Htok|].
  rewrite Hother by (intros H; vm_compute in H; discriminate); reflexivity.
Defined.

(** The application answers [{"decision":"allow"}]. *)
Lemma send_event_returns_reply_witness :
  let w := running (Done (encode_ascii doc_allow)) in
  is_request (sample_request w) = true
  /\ exists b text,
       recv w = Done b /\ utf8_decode b = Some text
       /\ sample_loads text
          = Returns (PyDict [ (py "decision", PyStr (py "allow")) ]).
Proof.
  cbv zeta.
  destruct (send_event_returns_reply sample_loads
              (running (Done (encode_ascii doc_allow)))
              (sample_request (running (Done (encode_ascii doc_allow))))
              (PyDict [ (py "decision", PyStr (py "allow")) ])
              eq_refl ltac:(discriminate)) as (Hreq & _ & Hreply).
  split; [exact Hreq|exact Hreply].
Defined.

(** A socket with mode 0o140777: every permission bit set. *)
Lemma verify_socket_security_ignores_permissions_witness :
  let w := {| getuid := 501; getppid := 1; tty := None;
              socket_exists := true;
              socket_stat := Done {| st_uid := 501; st_mode := 49663 |};
              token_exists := false; token_stat := OSErr [];
              token_read := ReadOSError []; socket_new := Done tt;
              connect := Done tt; sendall := Done tt; recv := Done [];
              close := Done tt |} in
  verify_socket_security w = ([], Ret (true, None)).
Proof.
  cbv zeta.
  match goal with
  | |- verify_socket_security ?w = _ =>
    refine (verify_socket_security_ignores_permissions w
              {| st_uid := 501; st_mode := 49663 |} 511
              eq_refl eq_refl eq_refl eq_refl _)
  end.
  lia.
Defined.

(** The record of the PreToolUse notification [pre_tool_data]. *)
Lemma classify_keeps_base_fields_witness :
  let w := running (Done []) in
  exists s,
    classify pre_tool_data (build_state w pre_tool_data) = FireAndForget s
    /\ dict_get s (py "session_id") = Some (PyStr (py "s1"))
    /\ dict_get s (py "cwd") = Some (PyStr [])
    /\ dict_get s (py "pid") = Some (PyInt 4242).
Proof.
  cbv zeta; eexists; split; [reflexivity|].
  destruct (classify_keeps_base_fields (running (Done [])) pre_tool_data _
              (or_intror eq_refl)) as (H1 & H2 & _ & H4 & _).
  split; [exact H1|split; [exact H2|exact H4]].
Defined.

Lemma classify_tool_fields_witness :
  let w := running (Done []) in
  exists s,
    classify pre_tool_data (build_state w pre_tool_data) = FireAndForget s
    /\ dict_get s (py "tool") = Some (PyStr (py "Bash"))
    /\ dict_get s (py "tool_input") = Some (PyDict [])
    /\ dict_get s (py "tool_use_id") = Some (PyStr (py "toolu_01")).
Proof.
  cbv zeta; eexists; split; [reflexivity|].
  exact (classify_tool_fields (running (Done [])) pre_tool_data _
           (or_intror eq_refl)).
Defined.

Lemma status_meaning_witness :
  let w := running (Done []) in
  event_is pre_tool_data "PreToolUse" = true
  /\ ~ (event_is pre_tool_data "UserPromptSubmit" = true
        \/ event_is pre_tool_data "PostToolUse" = true).
Proof.
  cbv zeta.
  destruct (status_meaning (running (Done [])) pre_tool_data _
              (py "running_tool") (or_intror eq_refl) eq_refl)
    as (Hprocessing & Hrunning & _).
  split; [now apply Hrunning|].
  intros H; apply Hprocessing in H; vm_compute in H; discriminate H.
Defined.

(** The message of a bare SessionStart notification. *)
Lemma main_message_fields_witness :
  let w := running (Done []) in
  exists d,
    In (EvSendall (PyDict d))
       (fst (main sample_loads w (doc_event "SessionStart")))
    /\ NoDup (map fst d)
    /\ dict_get d (py "session_id") = Some (PyStr (py "unknown"))
    /\ dict_get d (py "pid") = Some (PyInt 4242).
Proof.
  cbv zeta.
  set (w := running (Done [])).
  set (start := set_status (build_state w (event_data "SessionStart"))
                           "waiting_for_input").
  set (p := PyDict (dict_set start (py "_auth_token") (PyStr (py "0123abcd")))).
  assert (Hin : In (EvSendall p)
                   (fst (main sample_loads w (doc_event "SessionStart"))))
    by (vm_compute; auto 6).
  destruct (main_message_fields sample_loads w (doc_event "SessionStart")
              (event_data "SessionStart") p eq_refl Hin)
    as (d & status & token & Hp & Hnodup & Hsid & _ & _ & Hpid & _).
  exists d; rewrite <- Hp; repeat split; auto.
Defined.

(** Standard input is [[1]]. *)
Lemma main_rejects_non_object_witness :
  main sample_loads (running (Done [])) doc_list = ([], Raise AttributeError).
Proof.
  refine (proj1 (main_rejects_non_object sample_loads (running (Done []))
                   doc_list (PyList [PyInt 1]) eq_refl _)).
  discriminate.
Defined.

(** A SessionStart notification, with the application answering garbage or
    not answering: the same run. *)
Lemma main_ignores_reply_witness :
  main sample_loads (running (Done [xff])) (doc_event "SessionStart")
  = main sample_loads (running (OSErr (py "timed out")))
         (doc_event "SessionStart").
Proof.
  refine (main_ignores_reply sample_loads _ _ (doc_event "SessionStart")
            (event_data "SessionStart") _ eq_refl eq_refl).
  repeat split.
Defined.


Lemma get_tty_prefers_ps_witness :
  get_tty ps_env = ([], Ret (Some (py "/dev/ttys001"))).
Proof.
  destruct (get_tty_prefers_ps ps_env (py "ttys001" ++ [10%N]) eq_refl)
    as (name & Hrun & Hstart & [Hn|Hn] & _);
    try (intros H; vm_compute in H; discriminate H).
  - rewrite Hn in Hstart; vm_compute in Hstart; discriminate Hstart.
  - rewrite Hrun, Hn; reflexivity.
Defined.

Lemma get_tty_falls_back_witness :
  get_tty fallback_env = ([], Ret (Some (py "/dev/ttys003"))).
Proof.
  assert (Hps : ps_names_nothing fallback_env) by (right; left; reflexivity).
  destruct (get_tty_falls_back fallback_env Hps) as (_ & H & _).
  exact (proj1 (H _ eq_refl eq_refl) _ eq_refl).
Defined.

Lemma send_event_ascii_reply_witness :
  let w := running (Done (encode_ascii doc_allow)) in
  snd (send_event sample_loads w (sample_request w))
  = Ret (PyDict [ (py "decision", PyStr (py "allow")) ]).
Proof.
  cbv zeta.
  assert (Ht : socket_trusted (running (Done (encode_ascii doc_allow))))
    by (split; [reflexivity|]; eexists; repeat split).
  refine (send_event_ascii_reply sample_loads
            (running (Done (encode_ascii doc_allow)))
            (sample_request (running (Done (encode_ascii doc_allow))))
            (py "0123abcd") (encode_ascii doc_allow) Ht eq_refl _
            eq_refl eq_refl eq_refl eq_refl eq_refl _ eq_refl eq_refl);
    discriminate.
Defined.

(** Mode 0o100600 is accepted, mode 0o100640 (group may read) is not. *)
Lemma read_auth_token_owner_only_witness :
  let w := running (Done []) in
  (forall i, 0 <= i < 6 -> Z.testbit token_mode i = false)
  /\ Z.testbit 33184 5 = true.
Proof.
  cbv zeta; split; [|reflexivity].
  apply (proj1 (read_auth_token_owner_only (running (Done []))
                  {| st_uid := 501; st_mode := token_mode |}
                  (py "0123abcd") eq_refl eq_refl eq_refl eq_refl)).
  reflexivity.
Defined.
